(** * HTTP middlewares: roundtrip dump and header rewriting

    A shallow embedding of the Go package [middlewares]: the dump middleware
    with its response-sniffing writer, and the request/response header
    rewriting middlewares.  The package's own functions are transcribed one
    by one; the parts of the Go runtime and standard library they call
    (io, bytes, compress/gzip, net/http) are modelled by their documented
    contracts in the first half of the file. *)

From Stdlib Require Import ZArith.
From Stdlib.Strings Require Import Byte.
From stdpp Require Import gmap strings list fin_maps.

Local Open Scope Z_scope.

(* ===================================================================== *)
(** ** Go values *)
(* ===================================================================== *)

(** [[]byte]. *)
Abbreviation bytes := (list byte).

(** The Go conversion [string(b)] of a byte slice, and its inverse. *)
Definition string_of_bytes (b : bytes) : string := String.string_of_list_byte b.
Definition bytes_of_string (s : string) : bytes := String.list_byte_of_string s.

(** [len(b)] as a Go [int]. *)
Definition len {A} (l : list A) : Z := Z.of_nat (length l).

(** Values of Go's [error] interface that occur in the modelled calls; a
    nil error is [None] in an [option error]. *)
Inductive error : Type :=
| EOF                  (* io.EOF *)
| ErrUnexpectedEOF     (* io.ErrUnexpectedEOF *)
| ErrShortWrite        (* io.ErrShortWrite *)
| ErrHeader            (* gzip.ErrHeader *)
| ErrChecksum          (* gzip.ErrChecksum *)
| CorruptInputError    (* flate.CorruptInputError *)
| ErrOther (msg : string).

#[global] Instance error_eq_dec : EqDecision error.
Proof. solve_decision. Defined.

(** A Go call either returns or panics. *)
Inductive result (A : Type) : Type :=
| Done (a : A)
| Panic (msg : string).
Arguments Done {A} a.
Arguments Panic {A} msg.

Definition result_bind {A B} (x : result A) (f : A -> result B) : result B :=
  match x with
  | Done a => f a
  | Panic msg => Panic msg
  end.

#[global] Instance result_mbind : MBind result :=
  fun A B f x => result_bind x f.

Definition nil_dereference : string :=
  "runtime error: invalid memory address or nil pointer dereference".

(* ===================================================================== *)
(** ** Go maps and the [range] loop *)
(* ===================================================================== *)

(** [m[k]] on a map of slices: the zero value (a nil slice, here the empty
    list) when the key is absent. *)
Definition index {V} (m : gmap string (list V)) (k : string) : list V :=
  default [] (m !! k).

(** [for k, v := range src { dst[k] = f(k, v) }].  Go visits the keys in an
    unspecified order; each key is assigned once, so the outcome does not
    depend on it (see [range_assign_lookup]). *)
Definition range_assign {A B} (f : string -> A -> B)
    (src : gmap string A) (dst : gmap string B) : gmap string B :=
  map_fold (fun k v acc => <[k := f k v]> acc) dst src.

(* ===================================================================== *)
(** ** io, bytes and compress/gzip *)
(* ===================================================================== *)

(** [io.Writer]: [n, err := t.Write(p)], with the state of [t] afterwards. *)
Class Writer (T : Type) := io_Write : bytes -> T -> T * (Z * option error).

(** [bytes.Buffer], used only as a growing sink.  [Write] appends the whole
    slice and never reports an error (memory is taken as unbounded). *)
Record Buffer : Type := { Bytes : bytes }.

(** [bytes.NewBuffer(nil)]. *)
Definition NewBuffer_nil : Buffer := {| Bytes := [] |}.

#[global] Instance Buffer_Write : Writer Buffer :=
  fun p b => ({| Bytes := Bytes b ++ p |}, (len p, None)).

(** [io.MultiWriter(a, b).Write(p)]: the loop of [multiWriter.Write] over
    its two writers, in argument order.  It stops at the first writer that
    reports an error or a short count. *)
Definition multiWriter_Write {A B} `{Writer A, Writer B}
    (p : bytes) (t : A * B) : (A * B) * (Z * option error) :=
  let '(a, b) := t in
  let '(a', (n, err)) := io_Write p a in
  match err with
  | Some _ => ((a', b), (n, err))
  | None =>
    if decide (n ≠ len p) then ((a', b), (n, Some ErrShortWrite)) else
    let '(b', (n, err)) := io_Write p b in
    match err with
    | Some _ => ((a', b'), (n, err))
    | None =>
      if decide (n ≠ len p) then ((a', b'), (n, Some ErrShortWrite))
      else ((a', b'), (len p, None))
    end
  end.

(** The two calls into compress/gzip.  [gzip_NewReader b] is
    [gzip.NewReader] on a reader over [b]: it parses the member header at
    once and returns either a reader or, with a nil [*gzip.Reader], an
    error.  [gzip_ReadAll z] is [ioutil.ReadAll] on such a reader: the bytes
    decompressed until the end of the stream or the first error, and that
    error. *)
Class Gzip : Type := {
  gzip_Reader : Type;
  gzip_NewReader : bytes -> gzip_Reader + error;
  gzip_ReadAll : gzip_Reader -> bytes * option error
}.

(** The values the [io.Reader] variable of [dumpResponse] takes: a
    [*bytes.Reader], or a [*gzip.Reader] that may be the nil pointer. *)
Inductive Reader `{Gzip} : Type :=
| bytes_Reader (b : bytes)
| gzip_ReaderPtr (z : option gzip_Reader).

(** [ioutil.ReadAll(reader)].  It calls [reader.Read]; the method of
    [*gzip.Reader] reads a field of its receiver first, so a nil receiver
    panics, and [ReadAll] lets that panic through. *)
Definition ReadAll `{Gzip} (r : Reader) : result (bytes * option error) :=
  match r with
  | bytes_Reader b => Done (b, None)
  | gzip_ReaderPtr (Some z) => Done (gzip_ReadAll z)
  | gzip_ReaderPtr None => Panic nil_dereference
  end.

(* ===================================================================== *)
(** ** net/http: headers, requests, response writers, handlers *)
(* ===================================================================== *)

(** [http.Header], a [map[string][]string]. *)
Abbreviation http_Header := (gmap string (list string)).

(** [h.Get(key)] for a key already in canonical MIME form, as is the one
    literal this package passes: the first value stored under the key, or
    the empty string. *)
Definition Header_Get (h : http_Header) (key : string) : string :=
  match index h key with
  | [] => ""
  | v :: _ => v
  end.

(** A request body ([io.ReadCloser]): the bytes not yet read, and the error
    the stream ends with ([None] for a clean end of file).  A server request
    always has a non-nil body. *)
Record ReadCloser : Type := {
  unread : bytes;
  ending : option error
}.

(** [ioutil.NopCloser(bytes.NewBuffer(buf))]. *)
Definition NopCloser_NewBuffer (buf : bytes) : ReadCloser :=
  {| unread := buf; ending := None |}.

(** [ioutil.ReadAll(body)]: the data read until the end of the stream or the
    first error, and that error.  The slice returned is never nil, which
    [Some] records. *)
Definition ReadAll_body (body : ReadCloser) : option bytes * option error :=
  (Some (unread body), ending body).

(** The fields of [*http.Request] the package reads or writes. *)
Module Request.
Record t : Type := mk {
  Method : string;
  RequestURI : string;
  Proto : string;
  Header : http_Header;
  Body : ReadCloser
}.
End Request.

Definition MethodOptions : string := "OPTIONS".
Definition StatusOK : Z := 200.

(** [http.ResponseWriter].  [Header w] is the live map [w.Header()] returns;
    the callers mutate it in place, which [UpdHeader] models.  [Delivered]
    is not a Go method: it observes the body bytes the client has received
    from the writer so far. *)
Class ResponseWriter (W : Type) : Type := {
  Header : W -> http_Header;
  UpdHeader : (http_Header -> http_Header) -> W -> W;
  Write : bytes -> W -> W * (Z * option error);
  WriteHeader : Z -> W -> W;
  Delivered : W -> bytes
}.

#[global] Instance ResponseWriter_Writer `{ResponseWriter W} : Writer W := Write.

(** What the package relies on from a response writer: the header map is
    live; [Write] obeys the [io.Writer] contract (it reports
    [0 <= n <= len(p)] and the stream receives the first [n] bytes of [p]);
    nothing else sends body bytes. *)
Class ResponseWriterContract (W : Type) `{ResponseWriter W} : Prop := {
  Header_UpdHeader : forall f (w : W), Header (UpdHeader f w) = f (Header w);
  Delivered_UpdHeader : forall f (w : W), Delivered (UpdHeader f w) = Delivered w;
  Delivered_WriteHeader : forall s (w : W), Delivered (WriteHeader s w) = Delivered w;
  Write_count : forall p (w : W), 0 <= (Write p w).2.1 <= len p;
  Delivered_Write : forall p (w : W),
    Delivered (Write p w).1 = Delivered w ++ take (Z.to_nat (Write p w).2.1) p
}.

(** A downstream handler, as the sequence of calls it makes on the writer
    it is given; it may react to what the calls return. *)
Inductive Handler : Type :=
| Return
| DoWrite (p : bytes) (k : Z -> option error -> Handler)
| DoWriteHeader (status : Z) (k : Handler)
| DoHeader (k : http_Header -> Handler)
| DoUpdHeader (f : http_Header -> http_Header) (k : Handler).

(** The calls a handler made. *)
Inductive Call : Type :=
| CallWrite (p : bytes) (n : Z) (err : option error)
| CallWriteHeader (status : Z).

(** [h.ServeHTTP(w, r)] for the handler behaviour [h]: the writer when the
    handler returns, and the calls made in order. *)
Fixpoint ServeHTTP `{ResponseWriter W} (h : Handler) (w : W) : W * list Call :=
  match h with
  | Return => (w, [])
  | DoWrite p k =>
    let '(w', (n, err)) := Write p w in
    let '(w'', calls) := ServeHTTP (k n err) w' in
    (w'', CallWrite p n err :: calls)
  | DoWriteHeader status k =>
    let '(w', calls) := ServeHTTP k (WriteHeader status w) in
    (w', CallWriteHeader status :: calls)
  | DoHeader k => ServeHTTP (k (Header w)) w
  | DoUpdHeader f k => ServeHTTP k (UpdHeader f w)
  end.

(** Induction on a handler with the writer generalised; the cases are the
    five calls, with the writer's methods left folded. *)
Ltac handler_induction h w IH :=
  revert w;
  induction h as [|?p ?k IH|?s ?k IH|?k IH|?f ?k IH];
  intros w; cbn -[Write WriteHeader UpdHeader Delivered].

(** The byte slices passed to [Write], and the statuses passed to
    [WriteHeader]. *)
Definition written (calls : list Call) : list bytes :=
  omap (fun c => match c with CallWrite p _ _ => Some p | _ => None end) calls.

Definition statuses (calls : list Call) : list Z :=
  omap (fun c => match c with CallWriteHeader s => Some s | _ => None end) calls.

Definition write_ok (c : Call) : bool :=
  match c with
  | CallWrite _ _ (Some _) => false
  | _ => true
  end.


(** The server's own response writer, as far as a handler and the client
    can tell.  [sent] is the status line and header block once they are
    written (a copy of the map at that moment); [wire] is the body the
    client received.  [faults] scripts the connection: the entry consumed by
    a [Write] says whether it goes through ([None]) or breaks after some
    bytes with an error; past the script every write goes through. *)
Record response : Type := {
  handlerHeader : http_Header;
  sent : option (Z * http_Header);
  wire : bytes;
  faults : list (option (nat * error))
}.

(** A second [WriteHeader] is ignored by the server. *)
Definition response_WriteHeader (code : Z) (w : response) : response :=
  match sent w with
  | Some _ => w
  | None =>
    {| handlerHeader := handlerHeader w;
       sent := Some (code, handlerHeader w);
       wire := wire w;
       faults := faults w |}
  end.

(** A [Write] before any [WriteHeader] sends the default status first. *)
Definition response_Write (p : bytes) (w : response) : response * (Z * option error) :=
  let w := response_WriteHeader StatusOK w in
  match faults w with
  | Some (n, e) :: rest =>
    ({| handlerHeader := handlerHeader w; sent := sent w;
        wire := wire w ++ take n p; faults := rest |},
     (len (take n p), Some e))
  | _ =>
    ({| handlerHeader := handlerHeader w; sent := sent w;
        wire := wire w ++ p; faults := tail (faults w) |},
     (len p, None))
  end.

#[global] Instance response_ResponseWriter : ResponseWriter response := {
  Header := handlerHeader;
  UpdHeader f w :=
    {| handlerHeader := f (handlerHeader w); sent := sent w;
       wire := wire w; faults := faults w |};
  Write := response_Write;
  WriteHeader := response_WriteHeader;
  Delivered := wire
}.

(** A fresh connection with the given fault script. *)
Definition new_response (script : list (option (nat * error))) : response :=
  {| handlerHeader := ∅; sent := None; wire := []; faults := script |}.

(* ===================================================================== *)
(** ** The dump middleware *)
(* ===================================================================== *)

Module RequestDump.
Record t : Type := mk {
  Method : string;
  Target : string;
  Protocol : string;
  Headers : gmap string (list string);
  Body : string
}.
End RequestDump.

Module ResponseDump.
Record t : Type := mk {
  Headers : gmap string string;
  Body : string;
  StatusCode : Z
}.
End ResponseDump.

Module RoundtripDump.
Record t : Type := mk {
  Timestamp : Z;
  Request : RequestDump.t;
  Response : ResponseDump.t
}.
End RoundtripDump.

(** [dumpRequest] reads the body, puts a fresh reader over the bytes read
    in its place, and fills the dump.  It returns the request as the
    pointer [r] leaves it, next to the dump. *)
Definition dumpRequest (r : Request.t) : Request.t * RequestDump.t :=
  let '(bodyBuf, _) := ReadAll_body (Request.Body r) in
  let '(rBody, bodyString) :=
    match bodyBuf with
    | Some buf => (NopCloser_NewBuffer buf, string_of_bytes buf)
    | None => (Request.Body r, "")
    end in
  let headers := range_assign (fun _ v => v) (Request.Header r) ∅ in
  (Request.mk (Request.Method r) (Request.RequestURI r) (Request.Proto r)
              (Request.Header r) rBody,
   RequestDump.mk (Request.Method r) (Request.RequestURI r) (Request.Proto r)
                  headers bodyString).

(** The inner loop of [dumpResponse]: [s = ""; for vv in v { s += vv }]. *)
Definition join_values (v : list string) : string :=
  foldl (fun s vv => s +:+ vv) "" v.

Section Sniffer.
Context `{ResponseWriter W}.

(** [ResponseSnifferingWriter].  The [MultiWriter] field is
    [io.MultiWriter(BytesBuffer, realWriter)]: it holds the same two objects
    as the fields [BytesBuffer] and [ResponseWriter], so it has no state of
    its own here. *)
Record ResponseSnifferingWriter : Type := {
  SnifferResponseWriter : W;
  BytesBuffer : Buffer;
  Status : Z
}.

(** The [Status] field is not set: it starts as the zero value. *)
Definition NewResponseSnifferingWriter (realWriter : W) : ResponseSnifferingWriter :=
  {| SnifferResponseWriter := realWriter;
     BytesBuffer := NewBuffer_nil;
     Status := 0 |}.

Definition Sniffer_Header (w : ResponseSnifferingWriter) : http_Header :=
  Header (SnifferResponseWriter w).

Definition Sniffer_WriteHeader (status : Z) (w : ResponseSnifferingWriter)
    : ResponseSnifferingWriter :=
  {| SnifferResponseWriter := WriteHeader status (SnifferResponseWriter w);
     BytesBuffer := BytesBuffer w;
     Status := status |}.

Definition Sniffer_Write (b : bytes) (w : ResponseSnifferingWriter)
    : ResponseSnifferingWriter * (Z * option error) :=
  let '((buf, real), (n, err)) :=
    multiWriter_Write b (BytesBuffer w, SnifferResponseWriter w) in
  ({| SnifferResponseWriter := real; BytesBuffer := buf; Status := Status w |},
   (n, err)).

#[global] Instance Sniffer_ResponseWriter : ResponseWriter ResponseSnifferingWriter := {
  Header := Sniffer_Header;
  UpdHeader f w :=
    {| SnifferResponseWriter := UpdHeader f (SnifferResponseWriter w);
       BytesBuffer := BytesBuffer w;
       Status := Status w |};
  Write := Sniffer_Write;
  WriteHeader := Sniffer_WriteHeader;
  Delivered w := Delivered (SnifferResponseWriter w)
}.

Context `{Gzip}.

Definition dumpResponse (sw : ResponseSnifferingWriter) : result ResponseDump.t :=
  let headers := Header (SnifferResponseWriter sw) in
  let b := Bytes (BytesBuffer sw) in
  let reader := bytes_Reader b in
  let reader :=
    if decide (Header_Get headers "Content-Encoding" = "gzip") then
      match gzip_NewReader b with
      | inl z => gzip_ReaderPtr (Some z)
      | inr _ => gzip_ReaderPtr None
      end
    else reader in
  '(b, _) ← ReadAll reader;
  Done (ResponseDump.mk (range_assign (fun _ v => join_values v) headers ∅)
                        (string_of_bytes b) (Status sw)).

Definition dumpRoundtrip (now : Z) (sw : ResponseSnifferingWriter)
    (r : Request.t) : Request.t * result RoundtripDump.t :=
  let '(r, requestData) := dumpRequest r in
  (r, responseData ← dumpResponse sw;
      Done (RoundtripDump.mk now requestData responseData)).

(** What a call of the middleware's handler leaves behind: the writer it
    was given, and either the records handed to [dumpAction] (each in a
    goroutine of its own) or the panic that ended the call. *)
Definition NewDumpMiddleware (now : Z) (next : Request.t -> Handler)
    (w : W) (r : Request.t) : W * result (list RoundtripDump.t) :=
  if decide (Request.Method r ≠ MethodOptions) then
    let sw := NewResponseSnifferingWriter w in
    let '(r, requestData) := dumpRequest r in
    let sw := (ServeHTTP (next r) sw).1 in
    (SnifferResponseWriter sw,
     responseData ← dumpResponse sw;
     Done [RoundtripDump.mk now requestData responseData])
  else
    ((ServeHTTP (next r) w).1, Done []).

End Sniffer.

Arguments ResponseSnifferingWriter W : clear implicits.

(** The number of times [dumpAction] is started by one call. *)
Definition sink_calls (res : result (list RoundtripDump.t)) : nat :=
  match res with
  | Done dumps => length dumps
  | Panic _ => 0%nat
  end.

(* ===================================================================== *)
(** ** The header rewriting middlewares *)
(* ===================================================================== *)

Definition AllowOrigin : string := "Access-Control-Allow-Origin".
Definition AllowHeaders : string := "Access-Control-Allow-Headers".

Definition castToHeader (c : gmap string string) : http_Header :=
  range_assign (fun _ v => [v]) c ∅.

Definition castToHeaderForRequest (c : gmap string string) (r : Request.t)
    : http_Header :=
  range_assign
    (fun k v =>
       if decide (k = AllowOrigin ∧ v = "*")
       then index (Request.Header r) "Origin"
       else [v])
    c ∅.

Section Rewrite.
Context `{ResponseWriter W}.

Record rewriteResponseWriter : Type := {
  RewriteResponseWriter : W;
  RewriteHeader : http_Header
}.

Definition Rewrite_Header (w : rewriteResponseWriter) : http_Header :=
  Header (RewriteResponseWriter w).

Definition Rewrite_Write (b : bytes) (w : rewriteResponseWriter)
    : rewriteResponseWriter * (Z * option error) :=
  let '(real, res) := Write b (RewriteResponseWriter w) in
  ({| RewriteResponseWriter := real; RewriteHeader := RewriteHeader w |}, res).

Definition Rewrite_WriteHeader (statusCode : Z) (w : rewriteResponseWriter)
    : rewriteResponseWriter :=
  let real := RewriteResponseWriter w in
  let real := UpdHeader (range_assign (fun _ v => v) (RewriteHeader w)) real in
  let real :=
    if decide (0 < len (index (Header real) AllowOrigin)
               ∧ len (index (Header real) AllowHeaders) = 0)
    then UpdHeader <[AllowHeaders := ["*"]]> real
    else real in
  {| RewriteResponseWriter := WriteHeader statusCode real;
     RewriteHeader := RewriteHeader w |}.

#[global] Instance Rewrite_ResponseWriter : ResponseWriter rewriteResponseWriter := {
  Header := Rewrite_Header;
  UpdHeader f w :=
    {| RewriteResponseWriter := UpdHeader f (RewriteResponseWriter w);
       RewriteHeader := RewriteHeader w |};
  Write := Rewrite_Write;
  WriteHeader := Rewrite_WriteHeader;
  Delivered w := Delivered (RewriteResponseWriter w)
}.

Definition NewRequestHeaderWriteMiddlwware (headers : gmap string string)
    (next : Request.t -> Handler) (w : W) (r : Request.t) : W :=
  let rewriteHeader := castToHeader headers in
  let r :=
    Request.mk (Request.Method r) (Request.RequestURI r) (Request.Proto r)
               (range_assign (fun _ v => v) rewriteHeader (Request.Header r))
               (Request.Body r) in
  (ServeHTTP (next r) w).1.

Definition NewResponseHeaderWriteMiddlwware (headers : gmap string string)
    (next : Request.t -> Handler) (w : W) (r : Request.t) : W :=
  let rewriteHeader := castToHeaderForRequest headers r in
  let rw := {| RewriteResponseWriter := w; RewriteHeader := rewriteHeader |} in
  RewriteResponseWriter (ServeHTTP (next r) rw).1.

End Rewrite.

Arguments rewriteResponseWriter W : clear implicits.

(* ===================================================================== *)
(** ** A reference gzip reader *)
(* ===================================================================== *)

(** An instance of [Gzip] to run the definitions on concrete bytes.  It
    reads the gzip framing of RFC 1952 (members one after another, each with
    its CRC-32 and size trailer) for members without optional header fields
    whose deflate stream is made of stored blocks (RFC 1951, section 3.2.4);
    any other input is reported as an error, as a malformed stream is. *)
Module StoredGzip.

Definition byteZ (b : byte) : Z := Z.of_N (Byte.to_N b).

Definition le16 (b0 b1 : byte) : Z := byteZ b0 + 256 * byteZ b1.

Definition le32 (b0 b1 b2 b3 : byte) : Z := le16 b0 b1 + 65536 * le16 b2 b3.

(** CRC-32 (IEEE 802.3), one bit at a time. *)
Definition crc_bit (c : Z) : Z :=
  if Z.testbit c 0 then Z.lxor (Z.shiftr c 1) 0xEDB88320 else Z.shiftr c 1.

Definition crc_byte (c : Z) (b : byte) : Z :=
  Nat.iter 8 crc_bit (Z.lxor c (byteZ b)).

Definition crc32 (data : bytes) : Z :=
  Z.lxor (foldl crc_byte 0xFFFFFFFF data) 0xFFFFFFFF.

(** The ten-byte member header: the input after it, or the error.  No
    input at all is [io.EOF]; a cut header is [io.ErrUnexpectedEOF]. *)
Definition readHeader (b : bytes) : bytes + error :=
  match b with
  | [] => inr EOF
  | id1 :: id2 :: cm :: flg :: _ :: _ :: _ :: _ :: _ :: _ :: rest =>
    if decide (byteZ id1 = 0x1f ∧ byteZ id2 = 0x8b ∧ byteZ cm = 8 ∧ byteZ flg = 0)
    then inl rest
    else inr ErrHeader
  | _ => inr ErrUnexpectedEOF
  end.

(** Stored blocks up to the final one: the data so far, and the input
    after the stream or the error. *)
Fixpoint inflate (fuel : nat) (b out : bytes) : bytes * (bytes + error) :=
  match fuel with
  | O => (out, inr CorruptInputError)
  | S fuel =>
    match b with
    | hd :: l0 :: l1 :: n0 :: n1 :: rest =>
      let n := le16 l0 l1 in
      if decide (Z.land (Z.shiftr (byteZ hd) 1) 3 ≠ 0 ∨ le16 n0 n1 ≠ 65535 - n)
      then (out, inr CorruptInputError)
      else if decide (len rest < n)
      then (out ++ rest, inr ErrUnexpectedEOF)
      else
        let out := out ++ take (Z.to_nat n) rest in
        if Z.testbit (byteZ hd) 0
        then (out, inl (drop (Z.to_nat n) rest))
        else inflate fuel (drop (Z.to_nat n) rest) out
    | _ => (out, inr ErrUnexpectedEOF)
    end
  end.

(** The members of a stream, from the deflate data of the first one on. *)
Fixpoint members (fuel : nat) (b out : bytes) : bytes * option error :=
  match fuel with
  | O => (out, Some CorruptInputError)
  | S fuel =>
    match inflate (S (length b)) b [] with
    | (data, inr e) => (out ++ data, Some e)
    | (data, inl (c0 :: c1 :: c2 :: c3 :: s0 :: s1 :: s2 :: s3 :: rest)) =>
      if decide (le32 c0 c1 c2 c3 = crc32 data
                 ∧ le32 s0 s1 s2 s3 = len data `mod` 2 ^ 32)
      then
        match readHeader rest with
        | inl b' => members fuel b' (out ++ data)
        | inr EOF => (out ++ data, None)
        | inr e => (out ++ data, Some e)
        end
      else (out ++ data, Some ErrChecksum)
    | (data, inl _) => (out ++ data, Some ErrUnexpectedEOF)
    end
  end.

Definition gzip : Gzip := {|
  gzip_Reader := bytes;
  gzip_NewReader := readHeader;
  gzip_ReadAll z := members (S (length z)) z []
|}.

(** The two bytes [hi] as a gzip member with one stored block (the output
    of zlib at level 0 with gzip framing). *)
Definition hi_gz : bytes :=
  [x1f; x8b; x08; x00; x00; x00; x00; x00; x04; x03;
   x01; x02; x00; xfd; xff; x68; x69;
   xac; x2a; x93; xd8; x02; x00; x00; x00].

End StoredGzip.


(* ===================================================================== *)
(** ** Sample requests, handlers and connections *)
(* ===================================================================== *)

Module Sample.

(** [GET / HTTP/1.1] with the body [ping]. *)
Definition get : Request.t :=
  Request.mk "GET" "/" "HTTP/1.1"
             {[ "Accept" := ["*/*"] ]}
             {| unread := bytes_of_string "ping"; ending := None |}.

(** The same request sent from a page of [https://example.com]. *)
Definition get_with_origin : Request.t :=
  Request.mk "GET" "/" "HTTP/1.1"
             {[ "Origin" := ["https://example.com"] ]}
             {| unread := []; ending := None |}.

(** A handler that writes [hi] and returns, without calling [WriteHeader]. *)
Definition write_hi : Request.t -> Handler :=
  fun _ => DoWrite (bytes_of_string "hi") (fun _ _ => Return).

(** A handler that answers [304 Not Modified] for a gzip-encoded resource:
    it sets the encoding header and sends no body. *)
Definition not_modified_gzip : Request.t -> Handler :=
  fun _ => DoUpdHeader <["Content-Encoding" := ["gzip"]]> (DoWriteHeader 304 Return).

(** A handler that sends [hi] gzip-encoded. *)
Definition write_hi_gz : Request.t -> Handler :=
  fun _ => DoUpdHeader <["Content-Encoding" := ["gzip"]]>
             (DoWrite StoredGzip.hi_gz (fun _ _ => Return)).

(** A handler that sets two values for one header and writes [hi]. *)
Definition write_hi_vary : Request.t -> Handler :=
  fun _ => DoUpdHeader <["Vary" := ["Accept"; "Origin"]]>
             (DoWrite (bytes_of_string "hi") (fun _ _ => Return)).

(** A connection in good order, and one the client has already closed. *)
Definition conn : response := new_response [].
Definition closed_conn : response :=
  new_response [Some (0%nat, ErrOther "write: broken pipe")].

(** A connection that breaks after the first byte of the first write. *)
Definition flaky_conn : response :=
  new_response [Some (1%nat, ErrOther "write: connection reset by peer")].

(** A CORS pre-flight request; it happens to carry a body. *)
Definition options : Request.t :=
  Request.mk "OPTIONS" "/" "HTTP/1.1"
             {[ "Origin" := ["https://example.com"] ]}
             {| unread := bytes_of_string "ping"; ending := None |}.

(** A request whose body stream breaks after [pi]. *)
Definition get_cut : Request.t :=
  Request.mk "GET" "/" "HTTP/1.1"
             {[ "Accept" := ["*/*"]; "X-Foo" := ["old"; "older"] ]}
             {| unread := bytes_of_string "pi"; ending := Some ErrUnexpectedEOF |}.

(** A handler that calls [WriteHeader] twice, then writes [hi]. *)
Definition two_statuses : Request.t -> Handler :=
  fun _ => DoWriteHeader 404
             (DoWriteHeader 500
                (DoWrite (bytes_of_string "hi") (fun _ _ => Return))).

(** A handler that sets its own allow-origin header and writes [hi],
    without calling [WriteHeader]. *)
Definition own_origin_write_hi : Request.t -> Handler :=
  fun _ => DoUpdHeader <[AllowOrigin := ["https://other.example"]]>
             (DoWrite (bytes_of_string "hi") (fun _ _ => Return)).

(** A handler that sets a content type, calls [WriteHeader(200)] and
    writes [hi]. *)
Definition typed_ok_hi : Request.t -> Handler :=
  fun _ => DoUpdHeader <["Content-Type" := ["text/plain"]]>
             (DoWriteHeader 200
                (DoWrite (bytes_of_string "hi") (fun _ _ => Return))).

(** A handler that writes [hi], and [!] after it if that went through. *)
Definition write_hi_then : Request.t -> Handler :=
  fun _ => DoWrite (bytes_of_string "hi")
             (fun _ err => match err with
                           | None => DoWrite (bytes_of_string "!") (fun _ _ => Return)
                           | Some _ => Return
                           end).

End Sample.

(* ===================================================================== *)
(** ** Loops over maps, and joining header values *)
(* ===================================================================== *)

Lemma range_assign_lookup {A B} (f : string -> A -> B)
    (src : gmap string A) (dst : gmap string B) (k : string) :
  range_assign f src dst !! k =
  match src !! k with
  | Some v => Some (f k v)
  | None => dst !! k
  end.
Proof.
  unfold range_assign.
  apply (map_fold_weak_ind
           (fun r m => r !! k = match m !! k with
                                | Some v => Some (f k v)
                                | None => dst !! k
                                end)).
  - by rewrite lookup_empty.
  - intros i x m r Hi IH. destruct (decide (i = k)) as [->|Hne].
    + by rewrite !lookup_insert_eq.
    + by rewrite !lookup_insert_ne.
Qed.

Lemma range_assign_id (src : gmap string (list string)) (dst : gmap string (list string)) :
  range_assign (fun _ v => v) src dst = src ∪ dst.
Proof.
  apply map_eq. intros k. rewrite range_assign_lookup, lookup_union.
  destruct (src !! k), (dst !! k); done.
Qed.

Lemma append_empty_r (s : string) : s +:+ "" = s.
Proof.
  induction s as [|a s IH]; [reflexivity|]. exact (f_equal (String a) IH).
Qed.

Lemma append_assoc (s1 s2 s3 : string) : (s1 +:+ s2) +:+ s3 = s1 +:+ (s2 +:+ s3).
Proof.
  induction s1 as [|a s1 IH]; [reflexivity|]. exact (f_equal (String a) IH).
Qed.

Lemma concat_cons (x : string) (v : list string) :
  String.concat "" (x :: v) = x +:+ String.concat "" v.
Proof. destruct v; [symmetry; apply append_empty_r | reflexivity]. Qed.

Lemma foldl_append (s : string) (v : list string) :
  foldl (fun s vv => s +:+ vv) s v = s +:+ String.concat "" v.
Proof.
  revert s. induction v as [|x v IH]; intros s.
  - symmetry. apply append_empty_r.
  - rewrite concat_cons. cbn [foldl]. by rewrite IH, append_assoc.
Qed.

Lemma join_values_concat (v : list string) : join_values v = String.concat "" v.
Proof. unfold join_values. by rewrite foldl_append. Qed.

(* ===================================================================== *)
(** ** The response-sniffing writer *)
(* ===================================================================== *)

Section SnifferFacts.
Context `{ResponseWriter W}.
Implicit Types (w : ResponseSnifferingWriter W) (h : Handler).

Lemma Sniffer_Write_unfold (b : bytes) w :
  Write b w =
  let real := Write b (SnifferResponseWriter w) in
  ({| SnifferResponseWriter := real.1;
      BytesBuffer := {| Bytes := Bytes (BytesBuffer w) ++ b |};
      Status := Status w |},
   match real.2.2 with
   | Some e => real.2
   | None => if decide (real.2.1 = len b) then (len b, None)
             else (real.2.1, Some ErrShortWrite)
   end).
Proof.
  cbn. unfold Sniffer_Write, multiWriter_Write, io_Write at 1, Buffer_Write.
  rewrite decide_False by (intros Hne; by apply Hne).
  unfold io_Write, ResponseWriter_Writer.
  destruct (Write b (SnifferResponseWriter w)) as [real [n [e|]]]; cbn; [done|].
  destruct (decide (n = len b)) as [->|Hn].
  - by rewrite decide_False by (intros Hne; by apply Hne).
  - by rewrite decide_True.
Qed.

(** C3, as amended.  [Write] on the sniffing writer first appends the whole
    slice to the capture buffer, then passes the same slice to the real
    writer.  It returns [len(b)] and no error exactly when the real writer
    took the whole slice without error; an error of the real writer is
    returned as it is, with its count, and a short count without error
    becomes [io.ErrShortWrite].  The capture buffer keeps the slice in every
    case, and the recorded status is untouched. *)
Theorem Sniffer_Write_tee (b : bytes) (w : ResponseSnifferingWriter W) :
  let real := Write b (SnifferResponseWriter w) in
  let res := Write b w in
  SnifferResponseWriter res.1 = real.1
  ∧ Bytes (BytesBuffer res.1) = Bytes (BytesBuffer w) ++ b
  ∧ Status res.1 = Status w
  ∧ res.2 = match real.2.2 with
            | Some e => (real.2.1, Some e)
            | None => if decide (real.2.1 = len b) then (len b, None)
                      else (real.2.1, Some ErrShortWrite)
            end.
Proof.
  cbv zeta. rewrite Sniffer_Write_unfold. cbn.
  repeat split.
  destruct (Write b (SnifferResponseWriter w)) as [real [n [e|]]]; done.
Qed.

(** The capture buffer holds every slice passed to [Write], in order,
    whether or not the real writer took it. *)
Lemma ServeHTTP_sniffer_buffer h w :
  Bytes (BytesBuffer (ServeHTTP h w).1)
  = Bytes (BytesBuffer w) ++ concat (written (ServeHTTP h w).2).
Proof.
  handler_induction h w IH.
  - by rewrite app_nil_r.
  - assert (Bytes (BytesBuffer (Write p w).1) = Bytes (BytesBuffer w) ++ p) as Hbuf
      by (by rewrite Sniffer_Write_unfold).
    destruct (Write p w) as [w' [n err]]; cbn in Hbuf.
    specialize (IH n err w').
    destruct (ServeHTTP (k n err) w') as [w'' calls]; cbn in *.
    by rewrite IH, Hbuf, <-app_assoc.
  - specialize (IH (WriteHeader s w)).
    destruct (ServeHTTP k (WriteHeader s w)) as [w' calls]. done.
  - apply IH.
  - exact (IH (UpdHeader f w)).
Qed.

(** The recorded status is the one of the last [WriteHeader] call, and the
    initial value of the field when there was none. *)
Lemma ServeHTTP_sniffer_status h w :
  Status (ServeHTTP h w).1 = default (Status w) (last (statuses (ServeHTTP h w).2)).
Proof.
  handler_induction h w IH.
  - done.
  - assert (Status (Write p w).1 = Status w) as Hst
      by (by rewrite Sniffer_Write_unfold).
    destruct (Write p w) as [w' [n err]]; cbn in Hst.
    specialize (IH n err w').
    destruct (ServeHTTP (k n err) w') as [w'' calls]; cbn in *.
    by rewrite IH, Hst.
  - specialize (IH (WriteHeader s w)).
    destruct (ServeHTTP k (WriteHeader s w)) as [w' calls].
    cbn in *. rewrite IH, last_cons. by destruct (last _).
  - apply IH.
  - exact (IH (UpdHeader f w)).
Qed.

End SnifferFacts.

(* ===================================================================== *)
(** ** Writers that keep the contract *)
(* ===================================================================== *)

Lemma take_len {A} (p : list A) : take (Z.to_nat (len p)) p = p.
Proof. unfold len. rewrite Nat2Z.id. apply firstn_all. Qed.

Lemma take_length_take {A} (n : nat) (p : list A) :
  take (length (take n p)) p = take n p.
Proof.
  rewrite length_take.
  destruct (Nat.min_spec n (length p)) as [[_ ->]|[Hle ->]]; [done|].
  by rewrite firstn_all, take_ge.
Qed.

Lemma response_contract : ResponseWriterContract response.
Proof.
  split; try done.
  - intros s w. cbn. unfold response_WriteHeader. by destruct (sent w).
  - intros p w. cbn. unfold response_Write.
    destruct (faults _) as [|[[n e]|] rest]; cbn; unfold len; try lia.
    rewrite length_take. lia.
  - intros p w. cbn. unfold response_Write.
    assert (wire (response_WriteHeader StatusOK w) = wire w) as Hw
      by (unfold response_WriteHeader; by destruct (sent w)).
    destruct (faults _) as [|[[n e]|] rest]; cbn; rewrite Hw;
      rewrite ?take_len; try done.
    unfold len. by rewrite Nat2Z.id, take_length_take.
Qed.

#[global] Existing Instance response_contract.

Section Contracts.
Context `{ResponseWriterContract W}.

Lemma Sniffer_contract : ResponseWriterContract (ResponseSnifferingWriter W).
Proof.
  split.
  - intros f w. cbn. unfold Sniffer_Header. cbn. apply Header_UpdHeader.
  - intros f w. cbn. apply Delivered_UpdHeader.
  - intros s w. cbn. apply Delivered_WriteHeader.
  - intros p w. rewrite Sniffer_Write_unfold. cbn.
    pose proof (Write_count p (SnifferResponseWriter w)) as Hn.
    destruct (Write p (SnifferResponseWriter w)) as [real [n [e|]]]; cbn in *; [done|].
    case_decide; cbn; unfold len in *; lia.
  - intros p w. rewrite Sniffer_Write_unfold. cbn.
    pose proof (Delivered_Write p (SnifferResponseWriter w)) as Hd.
    destruct (Write p (SnifferResponseWriter w)) as [real [n [e|]]]; cbn in *; [done|].
    case_decide; cbn; [by subst|done].
Qed.

Lemma Rewrite_contract : ResponseWriterContract (rewriteResponseWriter W).
Proof.
  split.
  - intros f w. cbn. unfold Rewrite_Header. cbn. apply Header_UpdHeader.
  - intros f w. cbn. apply Delivered_UpdHeader.
  - intros s w. cbn. rewrite Delivered_WriteHeader.
    case_decide; by rewrite ?Delivered_UpdHeader.
  - intros p w. cbn. unfold Rewrite_Write.
    pose proof (Write_count p (RewriteResponseWriter w)) as Hn.
    by destruct (Write p (RewriteResponseWriter w)) as [real [n e]].
  - intros p w. cbn. unfold Rewrite_Write.
    pose proof (Delivered_Write p (RewriteResponseWriter w)) as Hd.
    by destruct (Write p (RewriteResponseWriter w)) as [real [n e]].
Qed.

End Contracts.

#[global] Existing Instance Sniffer_contract.
#[global] Existing Instance Rewrite_contract.

(* ===================================================================== *)
(** ** What the client received and what was captured *)
(* ===================================================================== *)

Section Tee.
Context `{ResponseWriterContract W}.
Implicit Types (w : ResponseSnifferingWriter W) (h : Handler).

(** A [Write] on the sniffing writer that reports no error has put the
    whole slice on the wire. *)
Lemma Sniffer_Write_ok (b : bytes) w :
  (Write b w).2.2 = None ->
  (Write b w).2.1 = len b ∧ Delivered (Write b w).1 = Delivered w ++ b.
Proof.
  rewrite Sniffer_Write_unfold. cbn.
  pose proof (Delivered_Write b (SnifferResponseWriter w)) as Hd.
  destruct (Write b (SnifferResponseWriter w)) as [real [n [e|]]]; cbn in *; [done|].
  case_decide as Hn; cbn; [|done]. intros _. subst n.
  by rewrite Hd, take_len.
Qed.

Lemma ServeHTTP_sniffer_delivered h w :
  forallb write_ok (ServeHTTP h w).2 = true ->
  Delivered (ServeHTTP h w).1 = Delivered w ++ concat (written (ServeHTTP h w).2).
Proof.
  handler_induction h w IH.
  - by rewrite app_nil_r.
  - pose proof (Sniffer_Write_ok p w) as Hok.
    destruct (Write p w) as [w' [n err]]; cbn -[Delivered] in Hok.
    specialize (IH n err w').
    destruct (ServeHTTP (k n err) w') as [w'' calls].
    cbn -[Delivered] in *. intros [Herr Hcalls]%andb_prop.
    destruct err; [done|]. destruct Hok as [_ Hd]; [done|].
    by rewrite IH, Hd, <-app_assoc.
  - specialize (IH (WriteHeader s w)).
    destruct (ServeHTTP k (WriteHeader s w)) as [w' calls].
    cbn -[Delivered WriteHeader] in *. intros Hcalls.
    by rewrite IH, Delivered_WriteHeader.
  - apply IH.
  - intros Hcalls. rewrite (IH (UpdHeader f w) Hcalls).
    by rewrite (Delivered_UpdHeader f w).
Qed.

(** C4.  When every [Write] the handler made through the sniffing writer
    succeeded, the client has received, after what it had before, exactly
    the bytes in the capture buffer, and these are the slices written,
    concatenated in write order. *)
Theorem client_bytes_eq_captured (h : Handler) (realWriter : W) :
  let run := ServeHTTP h (NewResponseSnifferingWriter realWriter) in
  forallb write_ok run.2 = true ->
  Bytes (BytesBuffer run.1) = concat (written run.2)
  ∧ Delivered (SnifferResponseWriter run.1)
    = Delivered realWriter ++ Bytes (BytesBuffer run.1).
Proof.
  cbv zeta. intros Hok.
  pose proof (ServeHTTP_sniffer_buffer h (NewResponseSnifferingWriter realWriter)) as Hb.
  pose proof (ServeHTTP_sniffer_delivered h _ Hok) as Hd.
  cbn in Hb. split; [done|]. by rewrite Hb.
Qed.

End Tee.

(* ===================================================================== *)
(** ** Capturing the response *)
(* ===================================================================== *)

Section Dump.
Context `{ResponseWriter W} `{Gzip}.
Implicit Types (sw : ResponseSnifferingWriter W).

Lemma dumpResponse_plain sw :
  Header_Get (Header (SnifferResponseWriter sw)) "Content-Encoding" ≠ "gzip" ->
  dumpResponse sw =
  Done (ResponseDump.mk (range_assign (fun _ v => join_values v) (Header (SnifferResponseWriter sw)) ∅)
                        (string_of_bytes (Bytes (BytesBuffer sw))) (Status sw)).
Proof. intros Hce. unfold dumpResponse. by rewrite decide_False. Qed.

Lemma dumpResponse_gzip sw (z : gzip_Reader) :
  Header_Get (Header (SnifferResponseWriter sw)) "Content-Encoding" = "gzip" ->
  gzip_NewReader (Bytes (BytesBuffer sw)) = inl z ->
  dumpResponse sw =
  Done (ResponseDump.mk (range_assign (fun _ v => join_values v) (Header (SnifferResponseWriter sw)) ∅)
                        (string_of_bytes (gzip_ReadAll z).1) (Status sw)).
Proof.
  intros Hce Hz. unfold dumpResponse. rewrite decide_True, Hz by done.
  cbn. by destruct (gzip_ReadAll z).
Qed.

Lemma dumpResponse_nil_reader sw (e : error) :
  Header_Get (Header (SnifferResponseWriter sw)) "Content-Encoding" = "gzip" ->
  gzip_NewReader (Bytes (BytesBuffer sw)) = inr e ->
  dumpResponse sw = Panic nil_dereference.
Proof.
  intros Hce Hz. unfold dumpResponse. by rewrite decide_True, Hz by done.
Qed.

(** C1, where the code departs from it.  For a response that declares
    [Content-Encoding: gzip]: if the captured bytes do not start with a
    gzip header, [gzip.NewReader] returns a nil reader with its error, the
    error is dropped, the nil reader is read, and [dumpResponse] panics
    instead of returning a dump.  Only a failure after the header is
    swallowed: the dump is then returned with the bytes decompressed up to
    the failure. *)
Theorem dumpResponse_decode_failure sw :
  Header_Get (Header (SnifferResponseWriter sw)) "Content-Encoding" = "gzip" ->
  match gzip_NewReader (Bytes (BytesBuffer sw)) with
  | inr _ => dumpResponse sw = Panic nil_dereference
  | inl z =>
    dumpResponse sw =
    Done (ResponseDump.mk
            (range_assign (fun _ v => join_values v)
                          (Header (SnifferResponseWriter sw)) ∅)
            (string_of_bytes (gzip_ReadAll z).1) (Status sw))
  end.
Proof.
  intros Hce. destruct (gzip_NewReader _) as [z|e] eqn:Hz.
  - by apply dumpResponse_gzip.
  - by apply (dumpResponse_nil_reader _ e).
Qed.

Lemma dumpResponse_Done_inv sw (d : ResponseDump.t) :
  dumpResponse sw = Done d ->
  ResponseDump.Headers d = range_assign (fun _ v => join_values v) (Header (SnifferResponseWriter sw)) ∅
  ∧ ResponseDump.StatusCode d = Status sw.
Proof.
  unfold dumpResponse. destruct (ReadAll _) as [[b e]|msg]; cbn; [|done].
  by intros [= <-].
Qed.

(** C9.  In a response dump every header key of the response is bound to
    its values joined in order with nothing between them, and no other key
    is bound. *)
Theorem dumpResponse_headers_joined sw (d : ResponseDump.t) (k : string) :
  dumpResponse sw = Done d ->
  ResponseDump.Headers d !! k
  = String.concat "" <$> (Header (SnifferResponseWriter sw) !! k).
Proof.
  intros [-> _]%dumpResponse_Done_inv.
  rewrite range_assign_lookup, lookup_empty.
  destruct (_ !! k) as [v|]; cbn; [|done]. by rewrite join_values_concat.
Qed.

Lemma NewDumpMiddleware_captured (now : Z) (next : Request.t -> Handler)
    (w : W) (r : Request.t) :
  Request.Method r ≠ MethodOptions ->
  NewDumpMiddleware now next w r =
  let sw := (ServeHTTP (next (dumpRequest r).1) (NewResponseSnifferingWriter w)).1 in
  (SnifferResponseWriter sw,
   responseData ← dumpResponse sw;
   Done [RoundtripDump.mk now (dumpRequest r).2 responseData]).
Proof.
  intros Hm. unfold NewDumpMiddleware. rewrite decide_True by done.
  by destruct (dumpRequest r).
Qed.

Lemma NewDumpMiddleware_options (now : Z) (next : Request.t -> Handler)
    (w : W) (r : Request.t) :
  Request.Method r = MethodOptions ->
  NewDumpMiddleware now next w r = ((ServeHTTP (next r) w).1, Done []).
Proof.
  intros Hm. unfold NewDumpMiddleware. rewrite decide_False; [done|].
  by intros Hne.
Qed.

(** Apart from that panic, a request that is not OPTIONS starts
    [dumpAction] exactly once, with the dump of this roundtrip, whether or
    not decompression ran into an error. *)
Lemma NewDumpMiddleware_sink_once (now : Z) (next : Request.t -> Handler)
    (w : W) (r : Request.t) :
  let sw := (ServeHTTP (next (dumpRequest r).1) (NewResponseSnifferingWriter w)).1 in
  Request.Method r ≠ MethodOptions ->
  Header_Get (Header (SnifferResponseWriter sw)) "Content-Encoding" ≠ "gzip"
  ∨ (exists z, gzip_NewReader (Bytes (BytesBuffer sw)) = inl z) ->
  exists rd, dumpResponse sw = Done rd
    ∧ (NewDumpMiddleware now next w r).2
      = Done [RoundtripDump.mk now (dumpRequest r).2 rd]
    ∧ sink_calls (NewDumpMiddleware now next w r).2 = 1%nat.
Proof.
  cbv zeta. intros Hm Hdec. rewrite NewDumpMiddleware_captured by done.
  cbv zeta. cbn [snd].
  destruct Hdec as [Hce|[z Hz]].
  - rewrite (dumpResponse_plain _ Hce). eauto.
  - destruct (decide (Header_Get (Header (SnifferResponseWriter
        (ServeHTTP (next (dumpRequest r).1) (NewResponseSnifferingWriter w)).1))
        "Content-Encoding" = "gzip")) as [Hce|Hce].
    + rewrite (dumpResponse_gzip _ z Hce Hz). eauto.
    + rewrite (dumpResponse_plain _ Hce). eauto.
Qed.

(** C8, where the code departs from it.  For a request that is not OPTIONS,
    if the handler leaves [Content-Encoding: gzip] on the response and the
    bytes it wrote do not start with a gzip header, the middleware panics
    after the handler has returned and [dumpAction] is never started. *)
Theorem NewDumpMiddleware_gzip_undecodable_no_sink (now : Z)
    (next : Request.t -> Handler) (w : W) (r : Request.t) (e : error) :
  let run := ServeHTTP (next (dumpRequest r).1) (NewResponseSnifferingWriter w) in
  Request.Method r ≠ MethodOptions ->
  Header_Get (Header (SnifferResponseWriter run.1)) "Content-Encoding" = "gzip" ->
  gzip_NewReader (concat (written run.2)) = inr e ->
  (NewDumpMiddleware now next w r).2 = Panic nil_dereference
  ∧ sink_calls (NewDumpMiddleware now next w r).2 = 0%nat.
Proof.
  cbv zeta. intros Hm Hce Hz.
  rewrite NewDumpMiddleware_captured by done. cbv zeta. cbn [snd].
  pose proof (ServeHTTP_sniffer_buffer (next (dumpRequest r).1)
                (NewResponseSnifferingWriter w)) as Hb.
  rewrite (dumpResponse_nil_reader _ e); [done | done |].
  by rewrite Hb.
Qed.

End Dump.

Section Roundtrip.
Context `{ResponseWriterContract W} `{Gzip}.

(** C2, where the code departs from it.  When the handler never calls
    [WriteHeader] on the sniffing writer, the status code in the dump is 0,
    the initial value of the writer's [Status] field: the status the real
    writer sends by default is not recorded, although the dump is meant to
    hold the HTTP status code of the response. *)
Theorem status_without_WriteHeader (now : Z) (next : Request.t -> Handler)
    (w : W) (r : Request.t) (d : RoundtripDump.t) :
  let run := ServeHTTP (next (dumpRequest r).1) (NewResponseSnifferingWriter w) in
  Request.Method r ≠ MethodOptions ->
  statuses run.2 = [] ->
  (NewDumpMiddleware now next w r).2 = Done [d] ->
  ResponseDump.StatusCode (RoundtripDump.Response d) = 0.
Proof.
  cbv zeta. intros Hm Hst. rewrite NewDumpMiddleware_captured by done.
  cbv zeta. cbn [snd].
  destruct (dumpResponse _) as [rd|msg] eqn:Hd; cbn; [|done].
  intros [= <-]. cbn.
  apply dumpResponse_Done_inv in Hd as [_ ->].
  by rewrite ServeHTTP_sniffer_status, Hst.
Qed.

(** C6.  Let [P] be the bytes the handler wrote, in order.  If every write
    succeeded, the client received [P] as it is.  If the response header
    [Content-Encoding] is [gzip] and [P] is a gzip stream that decompresses
    to [T] without error, the dump's body is [T]; if the header has any
    other value or is absent, the dump's body is [P]. *)
Theorem captured_body_decoding (now : Z) (next : Request.t -> Handler)
    (w : W) (r : Request.t) :
  let run := ServeHTTP (next (dumpRequest r).1) (NewResponseSnifferingWriter w) in
  let P := concat (written run.2) in
  let encoding :=
    Header_Get (Header (SnifferResponseWriter run.1)) "Content-Encoding" in
  let res := NewDumpMiddleware now next w r in
  Request.Method r ≠ MethodOptions ->
  (forallb write_ok run.2 = true -> Delivered res.1 = Delivered w ++ P)
  ∧ (forall (z : gzip_Reader) (T : bytes),
       encoding = "gzip" -> gzip_NewReader P = inl z -> gzip_ReadAll z = (T, None) ->
       exists d, res.2 = Done [d]
         ∧ ResponseDump.Body (RoundtripDump.Response d) = string_of_bytes T)
  ∧ (encoding ≠ "gzip" ->
       exists d, res.2 = Done [d]
         ∧ ResponseDump.Body (RoundtripDump.Response d) = string_of_bytes P).
Proof.
  cbv zeta. intros Hm. rewrite NewDumpMiddleware_captured by done.
  cbv zeta. cbn [fst snd].
  pose proof (ServeHTTP_sniffer_buffer (next (dumpRequest r).1)
                (NewResponseSnifferingWriter w)) as Hb.
  change (Bytes (BytesBuffer (NewResponseSnifferingWriter w))) with (@nil byte) in Hb.
  rewrite app_nil_l in Hb.
  split; [|split].
  - intros Hok. exact (ServeHTTP_sniffer_delivered _ _ Hok).
  - intros z T Hce Hz HT. rewrite <-Hb in Hz.
    rewrite (dumpResponse_gzip _ z Hce Hz), HT. cbn. eauto.
  - intros Hce. rewrite (dumpResponse_plain _ Hce), Hb. cbn. eauto.
Qed.

End Roundtrip.

(* ===================================================================== *)
(** ** Capturing the request *)
(* ===================================================================== *)

(** C5.  Whatever bytes [B] the inbound body still holds (none included),
    and however its stream ends, [dumpRequest] leaves on the request a fresh
    reader positioned at the start of [B] that ends cleanly, so a handler
    reading it afterwards gets [B] in full; the dump's body is [B] as a
    string.  The other request fields are left as they were, and the
    middleware passes this request to the downstream handler. *)
Theorem dumpRequest_body_preserved (r : Request.t) :
  let B := unread (Request.Body r) in
  let r' := (dumpRequest r).1 in
  Request.Body r' = NopCloser_NewBuffer B
  ∧ ReadAll_body (Request.Body r') = (Some B, None)
  ∧ RequestDump.Body (dumpRequest r).2 = string_of_bytes B
  ∧ bytes_of_string (RequestDump.Body (dumpRequest r).2) = B
  ∧ (Request.Method r', Request.RequestURI r', Request.Proto r', Request.Header r')
    = (Request.Method r, Request.RequestURI r, Request.Proto r, Request.Header r)
  ∧ forall W (RW : ResponseWriter W) (G : Gzip) now next (w : W),
      Request.Method r ≠ MethodOptions ->
      (NewDumpMiddleware now next w r).1
      = SnifferResponseWriter
          (ServeHTTP (next r') (NewResponseSnifferingWriter w)).1.
Proof.
  cbv zeta. unfold dumpRequest. cbn.
  repeat split.
  - unfold bytes_of_string, string_of_bytes.
    apply String.list_byte_of_string_of_list_byte.
  - intros W RW G now next w Hm.
    rewrite NewDumpMiddleware_captured by done. done.
Qed.

(* ===================================================================== *)
(** ** Rewriting the response headers *)
(* ===================================================================== *)

Lemma castToHeaderForRequest_origin (r : Request.t) :
  castToHeaderForRequest {[AllowOrigin := "*"]} r
  = {[AllowOrigin := index (Request.Header r) "Origin"]}.
Proof.
  apply map_eq. intros k. unfold castToHeaderForRequest.
  rewrite range_assign_lookup.
  destruct (decide (k = AllowOrigin)) as [->|Hne].
  - rewrite !lookup_singleton_eq. by rewrite decide_True.
  - by rewrite !lookup_singleton_ne, lookup_empty.
Qed.

Lemma castToHeader_lookup (c : gmap string string) (k : string) :
  castToHeader c !! k = (fun v => [v]) <$> (c !! k).
Proof.
  unfold castToHeader. rewrite range_assign_lookup, lookup_empty.
  by destruct (c !! k).
Qed.

(** X9.  The request-side middleware hands the handler the request with
    every configured header set to its single configured value, in place
    of the values the request came with; the other headers and the body
    are untouched. *)
Lemma NewRequestHeaderWriteMiddlwware_overlay `{ResponseWriter W}
    (headers : gmap string string) (next : Request.t -> Handler)
    (w : W) (r : Request.t) :
  exists r' : Request.t,
    NewRequestHeaderWriteMiddlwware headers next w r = (ServeHTTP (next r') w).1
    ∧ (forall k, Request.Header r' !! k
                 = match headers !! k with
                   | Some v => Some [v]
                   | None => Request.Header r !! k
                   end)
    ∧ Request.Body r' = Request.Body r.
Proof.
  eexists. split; [reflexivity|]. cbn. split; [|done].
  intros k. rewrite range_assign_lookup, castToHeader_lookup.
  by destruct (headers !! k).
Qed.

Section OriginEcho.
Context `{ResponseWriterContract W}.

(** [WriteHeader] of the rewriting writer: the overlay is laid over the
    real writer's header map, the allow-headers entry is added when the
    test passes, and the real [WriteHeader] runs on the outcome. *)
Lemma Rewrite_WriteHeader_real (statusCode : Z) (rw : rewriteResponseWriter W) :
  let h := RewriteHeader rw ∪ Header (RewriteResponseWriter rw) in
  exists real : W,
    RewriteResponseWriter (WriteHeader statusCode rw) = WriteHeader statusCode real
    ∧ Header real =
      if decide (0 < len (index h AllowOrigin) ∧ len (index h AllowHeaders) = 0)
      then <[AllowHeaders := ["*"]]> h else h.
Proof.
  cbv zeta. cbn. rewrite Header_UpdHeader, range_assign_id.
  case_decide; eexists; (split; [reflexivity|]).
  - by rewrite !Header_UpdHeader, range_assign_id.
  - by rewrite Header_UpdHeader, range_assign_id.
Qed.

(** One [WriteHeader] call under the origin overlay.  Under the overlay
    [{Access-Control-Allow-Origin: *}], for a
    request with [Origin: https://example.com], when the handler's
    [WriteHeader] reaches the rewriting writer the real writer's
    [WriteHeader] runs on a header map in which
    [Access-Control-Allow-Origin] is [https://example.com]; and
    [Access-Control-Allow-Headers] is [*] if it had no value before, its
    former values otherwise.  Other headers are as the handler set them. *)
Theorem origin_echo (w : W) (r : Request.t) (statusCode : Z) :
  Request.Header r !! "Origin" = Some ["https://example.com"] ->
  let rw := {| RewriteResponseWriter := w;
               RewriteHeader := castToHeaderForRequest {[AllowOrigin := "*"]} r |} in
  exists real : W,
    RewriteResponseWriter (WriteHeader statusCode rw) = WriteHeader statusCode real
    ∧ Header real !! AllowOrigin = Some ["https://example.com"]
    ∧ (index (Header w) AllowHeaders = [] ->
       Header real !! AllowHeaders = Some ["*"])
    ∧ (index (Header w) AllowHeaders ≠ [] ->
       Header real !! AllowHeaders = Header w !! AllowHeaders)
    ∧ (forall k, k ≠ AllowOrigin -> k ≠ AllowHeaders ->
       Header real !! k = Header w !! k).
Proof.
  intros Horigin rw.
  destruct (Rewrite_WriteHeader_real statusCode rw) as (real & Hreal & Hh).
  exists real. split; [done|]. clear Hreal. subst rw. cbn in Hh.
  rewrite castToHeaderForRequest_origin in Hh.
  assert (index (Request.Header r) "Origin" = ["https://example.com"]) as Ho
    by (unfold index; by rewrite Horigin).
  rewrite Ho in Hh. clear Ho Horigin.
  set (h := {[AllowOrigin := ["https://example.com"]]} ∪ Header w) in Hh.
  assert (h !! AllowOrigin = Some ["https://example.com"]) as Hao
    by (subst h; by rewrite lookup_union, lookup_singleton_eq, union_Some_l).
  assert (forall k, k ≠ AllowOrigin -> h !! k = Header w !! k) as Hother
    by (intros k Hk; subst h; rewrite lookup_union, lookup_singleton_ne by done;
        by destruct (Header w !! k)).
  assert (index h AllowOrigin = ["https://example.com"]) as Hio
    by (unfold index; by rewrite Hao).
  assert (index h AllowHeaders = index (Header w) AllowHeaders) as Hih
    by (unfold index; by rewrite Hother).
  rewrite Hio, Hih in Hh. clearbody h.
  destruct (decide (0 < len ["https://example.com"]
                    ∧ len (index (Header w) AllowHeaders) = 0))
    as [[_ Hlen]|Hlen]; rewrite Hh.
  - assert (index (Header w) AllowHeaders = []) as Hnil
      by (destruct (index _ _); [done | unfold len in Hlen; cbn in Hlen; lia]).
    split; [|split; [|split]].
    + by rewrite lookup_insert_ne.
    + intros _. by rewrite lookup_insert_eq.
    + by intros Hne.
    + intros k Hk1 Hk2. rewrite lookup_insert_ne by done. by apply Hother.
  - assert (index (Header w) AllowHeaders ≠ []) as Hnil.
    { intros Hnil. apply Hlen. rewrite Hnil. split; [unfold len; cbn; lia | done]. }
    split; [|split; [|split]].
    + done.
    + by intros Heq.
    + intros _. by apply Hother.
    + intros k Hk1 _. by apply Hother.
Qed.

(** One [WriteHeader] call without an origin.  Under the same overlay,
    for a request without an [Origin] value,
    the overlay binds [Access-Control-Allow-Origin] to the request's empty
    list of [Origin] values; at [WriteHeader] the real writer's map gets
    that key with no value, in place of whatever the handler had set, and
    nothing else changes: [Access-Control-Allow-Headers] is not added. *)
Theorem no_origin_no_injection (w : W) (r : Request.t) (statusCode : Z) :
  index (Request.Header r) "Origin" = [] ->
  let overlay := castToHeaderForRequest {[AllowOrigin := "*"]} r in
  let rw := {| RewriteResponseWriter := w; RewriteHeader := overlay |} in
  overlay !! AllowOrigin = Some (index (Request.Header r) "Origin")
  ∧ overlay = {[AllowOrigin := []]}
  ∧ exists real : W,
      RewriteResponseWriter (WriteHeader statusCode rw) = WriteHeader statusCode real
      ∧ Header real = <[AllowOrigin := []]> (Header w)
      ∧ index (Header real) AllowOrigin = []
      ∧ Header real !! AllowHeaders = Header w !! AllowHeaders.
Proof.
  intros Horigin overlay rw. subst overlay rw.
  rewrite castToHeaderForRequest_origin, Horigin, lookup_singleton_eq.
  split; [done|]. split; [done|].
  destruct (Rewrite_WriteHeader_real statusCode
              {| RewriteResponseWriter := w; RewriteHeader := {[AllowOrigin := []]} |})
    as (real & Hreal & Hh).
  exists real. split; [done|]. cbn [RewriteHeader RewriteResponseWriter] in Hh.
  rewrite decide_False in Hh.
  - rewrite Hh, <-insert_union_singleton_l. split; [done|].
    unfold index. rewrite lookup_insert_eq, lookup_insert_ne by done. done.
  - intros [Hlen _]. unfold index in Hlen.
    rewrite lookup_union, lookup_singleton_eq, union_Some_l in Hlen.
    unfold len in Hlen. cbn in Hlen. lia.
Qed.

End OriginEcho.

(* ===================================================================== *)
(** ** Further properties of the sniffing writer *)
(* ===================================================================== *)

Section Delivery.
Context `{ResponseWriterContract W}.


End Delivery.


Section SnifferMore.
Context `{ResponseWriter W}.

(** X1.  The capture buffer holds every slice the handler passed to
    [Write], in order and in full, whatever the real writer did with it:
    no contract is asked of the real writer, and failed writes count. *)
Theorem capture_holds_every_slice (h : Handler) (realWriter : W) :
  let run := ServeHTTP h (NewResponseSnifferingWriter realWriter) in
  Bytes (BytesBuffer run.1) = concat (written run.2).
Proof.
  cbv zeta.
  by rewrite (ServeHTTP_sniffer_buffer h (NewResponseSnifferingWriter realWriter)).
Qed.

(** The sniffing writer in front of a writer that never reports a short
    count without an error behaves, call by call, as that writer. *)
Lemma ServeHTTP_sniffer_real (h : Handler) (sw : ResponseSnifferingWriter W) :
  (forall p (w : W), (Write p w).2.2 = None -> (Write p w).2.1 = len p) ->
  SnifferResponseWriter (ServeHTTP h sw).1 = (ServeHTTP h (SnifferResponseWriter sw)).1
  ∧ (ServeHTTP h sw).2 = (ServeHTTP h (SnifferResponseWriter sw)).2.
Proof.
  intros Hhonest. revert sw.
  induction h as [|p k IH|s k IH|k IH|f k IH]; intros sw;
    cbn -[Write WriteHeader UpdHeader Delivered].
  - done.
  - rewrite Sniffer_Write_unfold. cbv zeta.
    pose proof (Hhonest p (SnifferResponseWriter sw)) as Hn.
    destruct (Write p (SnifferResponseWriter sw)) as [real [n [e|]]];
      cbn -[Write WriteHeader UpdHeader Delivered] in *.
    + match goal with
      | |- context [ServeHTTP (k n (Some e)) ?sw'] =>
          destruct (IH n (Some e) sw') as [IH1 IH2]
      end.
      cbn [SnifferResponseWriter] in *.
      destruct (ServeHTTP (k n (Some e)) _) as [sw'' calls].
      destruct (ServeHTTP (k n (Some e)) real) as [real'' calls'].
      cbn in *. by subst.
    + rewrite Hn by done. rewrite decide_True by done.
      match goal with
      | |- context [ServeHTTP (k (len p) None) ?sw'] =>
          destruct (IH (len p) None sw') as [IH1 IH2]
      end.
      cbn [SnifferResponseWriter] in *.
      destruct (ServeHTTP (k (len p) None) _) as [sw'' calls].
      destruct (ServeHTTP (k (len p) None) real) as [real'' calls'].
      cbn in *. by subst.
  - destruct (IH (WriteHeader s sw)) as [IH1 IH2].
    change (SnifferResponseWriter (WriteHeader s sw))
      with (WriteHeader s (SnifferResponseWriter sw)) in *.
    destruct (ServeHTTP k (WriteHeader s sw)) as [sw'' calls].
    destruct (ServeHTTP k (WriteHeader s (SnifferResponseWriter sw))) as [real'' calls'].
    cbn in *. by subst.
  - exact (IH (Header (SnifferResponseWriter sw)) sw).
  - exact (IH (UpdHeader f sw)).
Qed.

(** X2.  In front of a real writer that never reports a short count
    without an error (as [io.Writer] demands), the sniffing writer is
    transparent: the handler gets the same results from every call, makes
    the same calls, and leaves the real writer in the state it would have
    left it in without the sniffing writer. *)
Theorem sniffer_is_transparent (h : Handler) (realWriter : W) :
  (forall p (w : W), (Write p w).2.2 = None -> (Write p w).2.1 = len p) ->
  let run := ServeHTTP h (NewResponseSnifferingWriter realWriter) in
  SnifferResponseWriter run.1 = (ServeHTTP h realWriter).1
  ∧ run.2 = (ServeHTTP h realWriter).2.
Proof.
  intros Hhonest. cbv zeta.
  exact (ServeHTTP_sniffer_real h (NewResponseSnifferingWriter realWriter) Hhonest).
Qed.

End SnifferMore.

Section DeliveryBound.
Context `{ResponseWriterContract W}.


End DeliveryBound.

(* ===================================================================== *)
(** ** Further properties of the dump middleware *)
(* ===================================================================== *)

Section DumpMore.
Context `{ResponseWriter W} `{Gzip}.

(** X4.  [dumpResponse] panics in one case only: the response declares
    [Content-Encoding: gzip] (as the first value of that header) and
    [gzip.NewReader] rejects the captured bytes.  In every other case,
    errors met while decompressing included, it returns a dump. *)
Theorem dumpResponse_panics_iff (sw : ResponseSnifferingWriter W) :
  (exists msg, dumpResponse sw = Panic msg)
  <-> (Header_Get (Header (SnifferResponseWriter sw)) "Content-Encoding" = "gzip"
       ∧ exists e, gzip_NewReader (Bytes (BytesBuffer sw)) = inr e).
Proof.
  split.
  - intros [msg Hp].
    destruct (decide (Header_Get (Header (SnifferResponseWriter sw))
                        "Content-Encoding" = "gzip")) as [Hce|Hce].
    + split; [done|]. destruct (gzip_NewReader _) as [z|e] eqn:Hz; [|eauto].
      by rewrite (dumpResponse_gzip _ z Hce Hz) in Hp.
    + by rewrite (dumpResponse_plain _ Hce) in Hp.
  - intros [Hce [e Hz]]. exists nil_dereference.
    by apply (dumpResponse_nil_reader _ e).
Qed.

(** X5.  An OPTIONS request goes to the handler as it came, with the
    writer the middleware was given: the body is not read, no sniffing
    writer is put in front, nothing is dumped, and the call cannot panic in
    the middleware. *)
Theorem options_bypass (now : Z) (next : Request.t -> Handler)
    (w : W) (r : Request.t) :
  Request.Method r = MethodOptions ->
  (NewDumpMiddleware now next w r).1 = (ServeHTTP (next r) w).1
  ∧ (NewDumpMiddleware now next w r).2 = Done []
  ∧ sink_calls (NewDumpMiddleware now next w r).2 = 0%nat.
Proof.
  intros Hm. by rewrite NewDumpMiddleware_options.
Qed.

(** X6.  For any other request, unless the response declares gzip over
    bytes [gzip.NewReader] rejects, the middleware starts [dumpAction]
    once, with one record: the time read after the handler returned, the
    request as dumped before the handler ran, and the response dumped
    from the sniffing writer the handler wrote to; the status in it is the
    one of the handler's last [WriteHeader] call, 0 if it made none. *)
Theorem one_record_per_captured_request (now : Z) (next : Request.t -> Handler)
    (w : W) (r : Request.t) :
  let run := ServeHTTP (next (dumpRequest r).1) (NewResponseSnifferingWriter w) in
  Request.Method r ≠ MethodOptions ->
  Header_Get (Header (SnifferResponseWriter run.1)) "Content-Encoding" ≠ "gzip"
  ∨ (exists z, gzip_NewReader (concat (written run.2)) = inl z) ->
  exists rd,
    (NewDumpMiddleware now next w r).2
    = Done [RoundtripDump.mk now (dumpRequest r).2 rd]
    ∧ dumpResponse run.1 = Done rd
    ∧ ResponseDump.StatusCode rd = default 0 (last (statuses run.2))
    ∧ sink_calls (NewDumpMiddleware now next w r).2 = 1%nat.
Proof.
  cbv zeta. intros Hm Hdec.
  pose proof (ServeHTTP_sniffer_buffer (next (dumpRequest r).1)
                (NewResponseSnifferingWriter w)) as Hb.
  change (Bytes (BytesBuffer (NewResponseSnifferingWriter w)))
    with (@nil byte) in Hb. rewrite app_nil_l in Hb.
  rewrite <-Hb in Hdec.
  destruct (NewDumpMiddleware_sink_once now next w r Hm Hdec)
    as (rd & Hrd & Hres & Hn).
  exists rd. split; [done|]. split; [done|]. split; [|done].
  apply dumpResponse_Done_inv in Hrd as [_ ->].
  by rewrite ServeHTTP_sniffer_status.
Qed.

End DumpMore.

Lemma dumpRequest_twice (r : Request.t) :
  dumpRequest (dumpRequest r).1 = dumpRequest r.
Proof. by destruct r as [m u p h [b e]]. Qed.

(** X7.  The request dump carries the request's method, URI and protocol,
    and a header map equal to the request's, key by key and value list by
    value list. *)
Theorem dumpRequest_records_request (r : Request.t) :
  let d := (dumpRequest r).2 in
  RequestDump.Method d = Request.Method r
  ∧ RequestDump.Target d = Request.RequestURI r
  ∧ RequestDump.Protocol d = Request.Proto r
  ∧ RequestDump.Headers d = Request.Header r.
Proof.
  cbv zeta. unfold dumpRequest. cbn. repeat split.
  rewrite range_assign_id. apply (right_id_L ∅ (∪)).
Qed.

(** X8.  Capturing a request twice is the same as capturing it once: the
    second capture reads the replacement body and yields the same dump and
    the same request.  A read error of the original stream is seen by
    neither: it is dropped by the first capture. *)
Theorem dumpRequest_idempotent (r : Request.t) :
  dumpRequest (dumpRequest r).1 = dumpRequest r
  ∧ ending (Request.Body (dumpRequest r).1) = None.
Proof. split; [apply dumpRequest_twice | by destruct r as [m u p h [b e]]]. Qed.

(* ===================================================================== *)
(** ** Further properties of the header rewriting middlewares *)
(* ===================================================================== *)

(** X10.  The per-request overlay is the static one, except that an entry
    [Access-Control-Allow-Origin: *] is bound to the request's [Origin]
    values; without that entry it does not depend on the request. *)
Theorem castToHeaderForRequest_castToHeader (c : gmap string string)
    (r : Request.t) :
  castToHeaderForRequest c r =
  if decide (c !! AllowOrigin = Some "*")
  then <[AllowOrigin := index (Request.Header r) "Origin"]> (castToHeader c)
  else castToHeader c.
Proof.
  apply map_eq. intros k. unfold castToHeaderForRequest.
  rewrite range_assign_lookup.
  destruct (decide (c !! AllowOrigin = Some "*")) as [Hc|Hc].
  - destruct (decide (k = AllowOrigin)) as [->|Hk].
    + rewrite Hc, lookup_insert_eq. by rewrite decide_True.
    + rewrite lookup_insert_ne, castToHeader_lookup by done.
      destruct (c !! k); [|done]. cbn. rewrite decide_False; [done|].
      by intros [? _].
  - rewrite castToHeader_lookup.
    destruct (c !! k) as [v|] eqn:Hk; [|done]. cbn.
    rewrite decide_False; [done|]. intros [-> ->]. by apply Hc.
Qed.

Section RewriteMore.
Context `{ResponseWriter W}.

Lemma ServeHTTP_rewrite_no_WriteHeader (h : Handler) (rw : rewriteResponseWriter W) :
  statuses (ServeHTTP h (RewriteResponseWriter rw)).2 = [] ->
  ServeHTTP h rw
  = ({| RewriteResponseWriter := (ServeHTTP h (RewriteResponseWriter rw)).1;
        RewriteHeader := RewriteHeader rw |},
     (ServeHTTP h (RewriteResponseWriter rw)).2).
Proof.
  revert rw. induction h as [|p k IH|s k IH|k IH|f k IH]; intros rw;
    cbn -[Write WriteHeader UpdHeader Delivered].
  - by destruct rw.
  - change (Write p rw) with (Rewrite_Write p rw). unfold Rewrite_Write.
    destruct (Write p (RewriteResponseWriter rw)) as [real [n err]].
    match goal with
    | |- context [ServeHTTP (k n err) ?rw'] => specialize (IH n err rw')
    end.
    cbn [RewriteResponseWriter RewriteHeader] in IH.
    destruct (ServeHTTP (k n err) real) as [real' calls]. cbn in *.
    intros Hst. by rewrite (IH Hst).
  - destruct (ServeHTTP k (WriteHeader s (RewriteResponseWriter rw))). done.
  - exact (IH (Header (RewriteResponseWriter rw)) rw).
  - exact (IH (UpdHeader f rw)).
Qed.

(** X12.  The overlay is applied by the rewriting writer's [WriteHeader]
    and nowhere else: when the handler never calls [WriteHeader] (it only
    writes a body, say), the response-side middleware leaves the real
    writer exactly as the handler alone would have, with no header of the
    overlay set. *)
Theorem overlay_needs_WriteHeader (headers : gmap string string)
    (next : Request.t -> Handler) (w : W) (r : Request.t) :
  statuses (ServeHTTP (next r) w).2 = [] ->
  NewResponseHeaderWriteMiddlwware headers next w r = (ServeHTTP (next r) w).1.
Proof.
  intros Hst. unfold NewResponseHeaderWriteMiddlwware.
  by rewrite ServeHTTP_rewrite_no_WriteHeader.
Qed.

End RewriteMore.

Section RewriteOverlay.
Context `{ResponseWriterContract W}.

(** X11.  At [WriteHeader] the rewriting writer hands the real writer a
    header map in which every key of the overlay has the overlay's values
    in place of any the handler set, and every other key is as the handler
    left it; [Access-Control-Allow-Headers] alone is then set to [*] when
    the map has a value for [Access-Control-Allow-Origin] and none for it. *)
Theorem rewrite_overlay_replaces (statusCode : Z) (rw : rewriteResponseWriter W) :
  let before := Header (RewriteResponseWriter rw) in
  let laid k := match RewriteHeader rw !! k with
                | Some vs => Some vs
                | None => before !! k
                end in
  exists real : W,
    RewriteResponseWriter (WriteHeader statusCode rw) = WriteHeader statusCode real
    ∧ (forall k, k ≠ AllowHeaders -> Header real !! k = laid k)
    ∧ Header real !! AllowHeaders
      = if decide (default [] (laid AllowOrigin) ≠ []
                   ∧ default [] (laid AllowHeaders) = [])
        then Some ["*"] else laid AllowHeaders.
Proof.
  cbv zeta.
  destruct (Rewrite_WriteHeader_real statusCode rw) as (real & Hreal & Hh).
  exists real. split; [done|]. cbv zeta in Hh.
  set (h := RewriteHeader rw ∪ Header (RewriteResponseWriter rw)) in *.
  assert (forall k, h !! k = match RewriteHeader rw !! k with
                             | Some vs => Some vs
                             | None => Header (RewriteResponseWriter rw) !! k
                             end) as Hlaid.
  { intros k. subst h. rewrite lookup_union.
    destruct (RewriteHeader rw !! k), (Header (RewriteResponseWriter rw) !! k); done. }
  assert (forall k, 0 < len (index h k) <-> default [] (h !! k) ≠ []) as Hpos.
  { intros k. unfold index, len. destruct (default [] (h !! k)); cbn; split;
      (done || lia). }
  assert (forall k, len (index h k) = 0 <-> default [] (h !! k) = []) as Hzero.
  { intros k. unfold index, len. destruct (default [] (h !! k)); cbn; split;
      (done || lia). }
  rewrite <-!Hlaid. rewrite Hh.
  destruct (decide (0 < len (index h AllowOrigin) ∧ len (index h AllowHeaders) = 0))
    as [[H1 H2]|Hn].
  - rewrite decide_True by (split; [by apply Hpos | by apply Hzero]).
    split; [|by rewrite lookup_insert_eq].
    intros k Hk. rewrite lookup_insert_ne by done. by rewrite Hlaid.
  - rewrite decide_False.
    + split; [|done]. intros k _. by rewrite Hlaid.
    + intros [H1 H2]. apply Hn. split; [by apply Hpos | by apply Hzero].
Qed.

End RewriteOverlay.

(** The server's writer reports an error with every short count. *)
Lemma response_Write_honest (p : bytes) (w : response) :
  (Write p w).2.2 = None -> (Write p w).2.1 = len p.
Proof.
  cbn. unfold response_Write.
  by destruct (faults _) as [|[[n e]|] rest].
Qed.

Section DumpTransparent.
Context `{ResponseWriter W} `{Gzip}.

(** X13.  In front of a real writer that never reports a short count
    without an error, the dump middleware does not change what reaches
    that writer: after the call it is in the state the handler alone would
    have left it in, given the request with its body restored.  This holds
    also when the middleware panics after the handler has returned. *)
Theorem dump_middleware_transparent (now : Z) (next : Request.t -> Handler)
    (w : W) (r : Request.t) :
  (forall p (w : W), (Write p w).2.2 = None -> (Write p w).2.1 = len p) ->
  (NewDumpMiddleware now next w r).1
  = (ServeHTTP (next (if decide (Request.Method r = MethodOptions)
                      then r else (dumpRequest r).1)) w).1.
Proof.
  intros Hhonest. destruct (decide (Request.Method r = MethodOptions)) as [Hm|Hm].
  - by rewrite NewDumpMiddleware_options.
  - rewrite NewDumpMiddleware_captured by done. cbv zeta. cbn [fst].
    by destruct (ServeHTTP_sniffer_real (next (dumpRequest r).1)
                   (NewResponseSnifferingWriter w) Hhonest) as [-> _].
Qed.

End DumpTransparent.

Section Roundtrip2.
Context `{ResponseWriter W} `{Gzip}.

(** X14.  [dumpRoundtrip], called on the sniffing writer once the handler
    has returned and on the request as the first capture left it, builds
    the record the middleware builds (and panics when it panics): the
    second capture of the request finds the body the first one restored. *)
Theorem dumpRoundtrip_agrees (now : Z) (next : Request.t -> Handler)
    (w : W) (r : Request.t) :
  let r' := (dumpRequest r).1 in
  let sw := (ServeHTTP (next r') (NewResponseSnifferingWriter w)).1 in
  Request.Method r ≠ MethodOptions ->
  (dumpRoundtrip now sw r').1 = r'
  ∧ match (dumpRoundtrip now sw r').2 with
    | Done dump => (NewDumpMiddleware now next w r).2 = Done [dump]
    | Panic msg => (NewDumpMiddleware now next w r).2 = Panic msg
    end.
Proof.
  cbv zeta. intros Hm. rewrite NewDumpMiddleware_captured by done.
  cbv zeta. cbn [snd]. unfold dumpRoundtrip.
  rewrite dumpRequest_twice.
  destruct (dumpRequest r) as [r' requestData]. cbn [fst snd].
  split; [done|]. by destruct (dumpResponse _).
Qed.

End Roundtrip2.

(* ===================================================================== *)
(** ** The origin overlay at the middleware *)
(* ===================================================================== *)

Section OriginEchoMiddleware.
Context `{ResponseWriterContract W}.

(** A handler that sets headers and then calls [WriteHeader]: the call
    reaches the rewriting writer with the handler's headers in place. *)
Lemma NewResponseHeaderWriteMiddlwware_WriteHeader (headers : gmap string string)
    (next : Request.t -> Handler) (w : W) (r : Request.t)
    (pre : http_Header -> http_Header) (s : Z) (k : Handler) :
  next r = DoUpdHeader pre (DoWriteHeader s k) ->
  let rw := {| RewriteResponseWriter := UpdHeader pre w;
               RewriteHeader := castToHeaderForRequest headers r |} in
  NewResponseHeaderWriteMiddlwware headers next w r
  = RewriteResponseWriter
      (ServeHTTP k {| RewriteResponseWriter :=
                        RewriteResponseWriter (WriteHeader s rw);
                      RewriteHeader := castToHeaderForRequest headers r |}).1.
Proof.
  intros Hnext. cbv zeta. unfold NewResponseHeaderWriteMiddlwware.
  rewrite Hnext. cbn -[WriteHeader UpdHeader castToHeaderForRequest].
  change (UpdHeader pre {| RewriteResponseWriter := w;
                           RewriteHeader := castToHeaderForRequest headers r |})
    with {| RewriteResponseWriter := UpdHeader pre w;
            RewriteHeader := castToHeaderForRequest headers r |}.
  by destruct (ServeHTTP k _).
Qed.

(** C7, where the code departs from it.  Under the overlay
    [{Access-Control-Allow-Origin: *}], for a request with
    [Origin: https://example.com]: the origin is echoed only through the
    rewriting writer's [WriteHeader].  When the handler never calls
    [WriteHeader] (it only writes a body, and the server sends the default
    status), the middleware leaves the real writer as the handler alone
    would have: no [Access-Control-Allow-Origin] is set by it.  When the
    handler sets its headers and calls [WriteHeader], the real writer's
    [WriteHeader] runs on a map with the origin echoed, and with
    [Access-Control-Allow-Headers: *] if that header had no value. *)
Theorem origin_echo_at_middleware (next : Request.t -> Handler)
    (w : W) (r : Request.t) :
  Request.Header r !! "Origin" = Some ["https://example.com"] ->
  let overlay := castToHeaderForRequest {[AllowOrigin := "*"]} r in
  let served := NewResponseHeaderWriteMiddlwware {[AllowOrigin := "*"]} next w r in
  (statuses (ServeHTTP (next r) w).2 = [] -> served = (ServeHTTP (next r) w).1)
  ∧ (forall pre s k, next r = DoUpdHeader pre (DoWriteHeader s k) ->
       exists real : W,
         served = RewriteResponseWriter
                    (ServeHTTP k {| RewriteResponseWriter := WriteHeader s real;
                                    RewriteHeader := overlay |}).1
         ∧ Header real !! AllowOrigin = Some ["https://example.com"]
         ∧ (index (pre (Header w)) AllowHeaders = [] ->
            Header real !! AllowHeaders = Some ["*"])
         ∧ (index (pre (Header w)) AllowHeaders ≠ [] ->
            Header real !! AllowHeaders = pre (Header w) !! AllowHeaders)).
Proof.
  intros Horigin overlay served. subst overlay served. split.
  - intros Hst. unfold NewResponseHeaderWriteMiddlwware.
    by rewrite ServeHTTP_rewrite_no_WriteHeader.
  - intros pre s k Hnext.
    rewrite (NewResponseHeaderWriteMiddlwware_WriteHeader _ next w r pre s k Hnext).
    cbv zeta.
    destruct (origin_echo (UpdHeader pre w) r s Horigin)
      as (real & Hreal & Hao & Hah1 & Hah2 & _).
    cbv zeta in Hreal. rewrite Header_UpdHeader in Hah1, Hah2.
    exists real. rewrite Hreal. done.
Qed.

(** C10, where the code departs from it.  Under the same overlay, for a
    request without an [Origin] value: the overlay binds
    [Access-Control-Allow-Origin] to the request's empty list of values.
    When the handler sets its headers and calls [WriteHeader], the real
    writer's [WriteHeader] runs on the handler's map with that key bound to
    no value and nothing else changed, so [Access-Control-Allow-Headers] is
    not added.  When the handler never calls [WriteHeader], the middleware
    leaves the real writer as the handler alone would have: an
    [Access-Control-Allow-Origin] value the handler set stays. *)
Theorem no_origin_at_middleware (next : Request.t -> Handler)
    (w : W) (r : Request.t) :
  index (Request.Header r) "Origin" = [] ->
  let overlay := castToHeaderForRequest {[AllowOrigin := "*"]} r in
  let served := NewResponseHeaderWriteMiddlwware {[AllowOrigin := "*"]} next w r in
  overlay = {[AllowOrigin := []]}
  ∧ (statuses (ServeHTTP (next r) w).2 = [] -> served = (ServeHTTP (next r) w).1)
  ∧ (forall pre s k, next r = DoUpdHeader pre (DoWriteHeader s k) ->
       exists real : W,
         served = RewriteResponseWriter
                    (ServeHTTP k {| RewriteResponseWriter := WriteHeader s real;
                                    RewriteHeader := overlay |}).1
         ∧ Header real = <[AllowOrigin := []]> (pre (Header w))
         ∧ Header real !! AllowHeaders = pre (Header w) !! AllowHeaders).
Proof.
  intros Horigin overlay served. subst overlay served.
  split; [|split].
  - by rewrite castToHeaderForRequest_origin, Horigin.
  - intros Hst. unfold NewResponseHeaderWriteMiddlwware.
    by rewrite ServeHTTP_rewrite_no_WriteHeader.
  - intros pre s k Hnext.
    rewrite (NewResponseHeaderWriteMiddlwware_WriteHeader _ next w r pre s k Hnext).
    cbv zeta.
    destruct (no_origin_no_injection (UpdHeader pre w) r s Horigin)
      as (_ & _ & real & Hreal & Hh & _ & Hah).
    rewrite Header_UpdHeader in Hh, Hah.
    exists real. rewrite Hreal. done.
Qed.

End OriginEchoMiddleware.

(* ===================================================================== *)
(** ** The definitions at work *)
(* ===================================================================== *)

Section Runs.
#[local] Existing Instance StoredGzip.gzip.

(** C1 on a run: a [304] for a gzip-encoded resource, no body written. *)
Lemma dumpResponse_decode_failure_run :
  let sw := (ServeHTTP (Sample.not_modified_gzip Sample.get)
               (NewResponseSnifferingWriter Sample.conn)).1 in
  Header_Get (Header (SnifferResponseWriter sw)) "Content-Encoding" = "gzip"
  ∧ Bytes (BytesBuffer sw) = []
  ∧ gzip_NewReader (Bytes (BytesBuffer sw)) = inr EOF
  ∧ dumpResponse sw = Panic nil_dereference.
Proof.
  cbv zeta. split; [reflexivity|]. split; [reflexivity|]. split; [reflexivity|].
  exact (dumpResponse_decode_failure
           (ServeHTTP (Sample.not_modified_gzip Sample.get)
              (NewResponseSnifferingWriter Sample.conn)).1 eq_refl).
Defined.

(** C8 on the same run: the status line went out, then the panic. *)
Lemma NewDumpMiddleware_gzip_undecodable_no_sink_run :
  let run := ServeHTTP (Sample.not_modified_gzip (dumpRequest Sample.get).1)
               (NewResponseSnifferingWriter Sample.conn) in
  let res := NewDumpMiddleware 0 Sample.not_modified_gzip Sample.conn Sample.get in
  Request.Method Sample.get ≠ MethodOptions
  ∧ Header_Get (Header (SnifferResponseWriter run.1)) "Content-Encoding" = "gzip"
  ∧ gzip_NewReader (concat (written run.2)) = inr EOF
  ∧ fst <$> sent res.1 = Some 304
  ∧ res.2 = Panic nil_dereference
  ∧ sink_calls res.2 = 0%nat.
Proof.
  cbv zeta. split; [done|]. split; [reflexivity|]. split; [reflexivity|].
  split; [reflexivity|].
  apply (NewDumpMiddleware_gzip_undecodable_no_sink
           0 Sample.not_modified_gzip Sample.conn Sample.get EOF);
    [done | reflexivity | reflexivity].
Defined.

(** C2 as stated fails: the handler writes [hi] without calling
    [WriteHeader]; the server sends status 200, and the dump records 0. *)
Lemma status_default_not_recorded :
  let res := NewDumpMiddleware 0 Sample.write_hi Sample.conn Sample.get in
  fst <$> sent res.1 = Some StatusOK
  ∧ wire res.1 = bytes_of_string "hi"
  ∧ exists d, res.2 = Done [d]
      ∧ ResponseDump.StatusCode (RoundtripDump.Response d) = 0
      ∧ ResponseDump.StatusCode (RoundtripDump.Response d) ≠ StatusOK.
Proof.
  cbv zeta. split; [reflexivity|]. split; [reflexivity|].
  eexists. split; [reflexivity|]. split; [reflexivity|]. done.
Defined.

(** C2 on that run. *)
Lemma status_without_WriteHeader_run :
  let run := ServeHTTP (Sample.write_hi (dumpRequest Sample.get).1)
               (NewResponseSnifferingWriter Sample.conn) in
  let d := RoundtripDump.mk 0 (dumpRequest Sample.get).2
             (ResponseDump.mk ∅ "hi" 0) in
  Request.Method Sample.get ≠ MethodOptions
  ∧ statuses run.2 = []
  ∧ (NewDumpMiddleware 0 Sample.write_hi Sample.conn Sample.get).2 = Done [d]
  ∧ ResponseDump.StatusCode (RoundtripDump.Response d) = 0.
Proof.
  cbv zeta. split; [done|]. split; [reflexivity|]. split; [reflexivity|].
  apply (status_without_WriteHeader 0 Sample.write_hi Sample.conn Sample.get);
    [done | reflexivity | reflexivity].
Defined.

(** C3 as stated fails: on a connection the client has closed, [Write]
    reports the error, the real writer has taken no byte, and the capture
    buffer holds the slice all the same; the dump of that roundtrip then
    shows a body the client never received. *)
Lemma failed_write_stays_captured :
  let res := Write (bytes_of_string "hi")
               (NewResponseSnifferingWriter Sample.closed_conn) in
  let served := NewDumpMiddleware 0 Sample.write_hi Sample.closed_conn Sample.get in
  res.2 = (0, Some (ErrOther "write: broken pipe"))
  ∧ Delivered (SnifferResponseWriter res.1) = []
  ∧ Bytes (BytesBuffer res.1) = bytes_of_string "hi"
  ∧ wire served.1 = []
  ∧ exists d, served.2 = Done [d]
      ∧ ResponseDump.Body (RoundtripDump.Response d) = "hi".
Proof.
  cbv zeta. do 4 (split; [reflexivity|]).
  eexists. split; reflexivity.
Defined.

(** C4 on a run: [hi] written to a connection in good order. *)
Lemma client_bytes_eq_captured_run :
  let run := ServeHTTP (Sample.write_hi Sample.get)
               (NewResponseSnifferingWriter Sample.conn) in
  forallb write_ok run.2 = true
  ∧ Bytes (BytesBuffer run.1) = concat (written run.2)
  ∧ Delivered (SnifferResponseWriter run.1)
    = Delivered Sample.conn ++ Bytes (BytesBuffer run.1).
Proof.
  cbv zeta. split; [reflexivity|].
  apply (client_bytes_eq_captured (Sample.write_hi Sample.get) Sample.conn).
  reflexivity.
Defined.

(** C6 on a run: the client gets the gzip stream, the dump the text. *)
Lemma captured_body_decoding_run :
  let res := NewDumpMiddleware 0 Sample.write_hi_gz Sample.conn Sample.get in
  Request.Method Sample.get ≠ MethodOptions
  ∧ Delivered res.1 = StoredGzip.hi_gz
  ∧ exists d, res.2 = Done [d]
      ∧ ResponseDump.Body (RoundtripDump.Response d) = "hi".
Proof.
  cbv zeta. split; [done|].
  destruct (captured_body_decoding 0 Sample.write_hi_gz Sample.conn Sample.get)
    as (Hwire & Hgz & _); [done|].
  split; [exact (Hwire eq_refl)|].
  exact (Hgz _ (bytes_of_string "hi") eq_refl eq_refl eq_refl).
Defined.

(** C9 on a run: the two values of [Vary] are glued together. *)
Lemma dumpResponse_headers_joined_run :
  let sw := (ServeHTTP (Sample.write_hi_vary Sample.get)
               (NewResponseSnifferingWriter Sample.conn)).1 in
  let d := ResponseDump.mk {[ "Vary" := "AcceptOrigin" ]} "hi" 0 in
  dumpResponse sw = Done d
  ∧ ResponseDump.Headers d !! "Vary" = Some "AcceptOrigin".
Proof.
  cbv zeta. split; [reflexivity|].
  exact (dumpResponse_headers_joined
           (ServeHTTP (Sample.write_hi_vary Sample.get)
              (NewResponseSnifferingWriter Sample.conn)).1
           (ResponseDump.mk {[ "Vary" := "AcceptOrigin" ]} "hi" 0)
           "Vary" eq_refl).
Defined.

(** The echo on a run: what the server sends at [WriteHeader(200)]. *)
Lemma origin_echo_run :
  let rw := {| RewriteResponseWriter := Sample.conn;
               RewriteHeader :=
                 castToHeaderForRequest {[AllowOrigin := "*"]} Sample.get_with_origin |} in
  Request.Header Sample.get_with_origin !! "Origin" = Some ["https://example.com"]
  ∧ sent (RewriteResponseWriter (WriteHeader 200 rw))
    = Some (200, {[ AllowOrigin := ["https://example.com"];
                    AllowHeaders := ["*"] ]})
  ∧ exists real : response,
      RewriteResponseWriter (WriteHeader 200 rw) = WriteHeader 200 real
      ∧ Header real !! AllowOrigin = Some ["https://example.com"].
Proof.
  cbv zeta. split; [reflexivity|]. split; [reflexivity|].
  destruct (origin_echo Sample.conn Sample.get_with_origin 200 eq_refl)
    as (real & Hreal & Hao & _).
  exists real. split; [exact Hreal | exact Hao].
Defined.

(** No echo on a run: a request without [Origin]. *)
Lemma no_origin_no_injection_run :
  let overlay := castToHeaderForRequest {[AllowOrigin := "*"]} Sample.get in
  let rw := {| RewriteResponseWriter := Sample.conn; RewriteHeader := overlay |} in
  index (Request.Header Sample.get) "Origin" = []
  ∧ sent (RewriteResponseWriter (WriteHeader 200 rw))
    = Some (200, {[ AllowOrigin := [] ]})
  ∧ overlay = {[AllowOrigin := []]}.
Proof.
  cbv zeta. split; [reflexivity|]. split; [reflexivity|].
  exact (proj1 (proj2 (no_origin_no_injection Sample.conn Sample.get 200 eq_refl))).
Defined.

End Runs.

Section MoreRuns.
#[local] Existing Instance StoredGzip.gzip.

(** X2 on a run: the connection breaks after [h]; the handler sees the
    error and stops, with or without the sniffing writer. *)
Lemma sniffer_is_transparent_run :
  let run := ServeHTTP (Sample.write_hi_then Sample.get)
               (NewResponseSnifferingWriter Sample.flaky_conn) in
  SnifferResponseWriter run.1
  = (ServeHTTP (Sample.write_hi_then Sample.get) Sample.flaky_conn).1
  ∧ run.2 = [CallWrite (bytes_of_string "hi") 1
               (Some (ErrOther "write: connection reset by peer"))].
Proof.
  cbv zeta.
  destruct (sniffer_is_transparent (Sample.write_hi_then Sample.get)
              Sample.flaky_conn response_Write_honest) as [Hw Hc].
  split; [exact Hw | exact Hc].
Defined.


(** X5 on a run: a pre-flight request answered with [hi]. *)
Lemma options_bypass_run :
  let res := NewDumpMiddleware 0 Sample.write_hi Sample.conn Sample.options in
  Request.Method Sample.options = MethodOptions
  ∧ res.1 = (ServeHTTP (Sample.write_hi Sample.options) Sample.conn).1
  ∧ res.2 = Done []
  ∧ sink_calls res.2 = 0%nat.
Proof.
  cbv zeta. split; [reflexivity|].
  exact (options_bypass 0 Sample.write_hi Sample.conn Sample.options eq_refl).
Defined.

(** X6 on a run: [WriteHeader(404)], then [WriteHeader(500)], then [hi].
    The one record holds the request body [ping] and the status 500; the
    server sent 404, its first. *)
Lemma one_record_per_captured_request_run :
  let res := NewDumpMiddleware 7 Sample.two_statuses Sample.conn Sample.get in
  Request.Method Sample.get ≠ MethodOptions
  ∧ fst <$> sent res.1 = Some 404
  ∧ exists rd,
      res.2 = Done [RoundtripDump.mk 7 (dumpRequest Sample.get).2 rd]
      ∧ RequestDump.Body (dumpRequest Sample.get).2 = "ping"
      ∧ ResponseDump.Body rd = "hi"
      ∧ ResponseDump.StatusCode rd = 500
      ∧ sink_calls res.2 = 1%nat.
Proof.
  cbv zeta. split; [done|]. split; [reflexivity|].
  destruct (one_record_per_captured_request 7 Sample.two_statuses Sample.conn
              Sample.get) as (rd & Hres & Hrd & Hst & Hn);
    [done | left; by vm_compute |].
  exists rd. split; [exact Hres|]. split; [reflexivity|].
  split; [|split; [exact Hst | exact Hn]].
  vm_compute in Hrd. by injection Hrd as <-.
Defined.

(** X11 on a run: the handler had set its own allow-origin and a content
    type; the overlay's origin replaces the former, the latter stays, and
    the allow-headers entry is added. *)
Lemma rewrite_overlay_replaces_run :
  let w := UpdHeader (fun _ => {[ AllowOrigin := ["https://other.example"];
                                  "Content-Type" := ["text/plain"] ]})
             Sample.conn in
  let rw := {| RewriteResponseWriter := w;
               RewriteHeader := {[ AllowOrigin := ["https://example.com"] ]} |} in
  sent (RewriteResponseWriter (WriteHeader 200 rw))
  = Some (200, {[ AllowOrigin := ["https://example.com"];
                  "Content-Type" := ["text/plain"];
                  AllowHeaders := ["*"] ]})
  ∧ exists real : response,
      RewriteResponseWriter (WriteHeader 200 rw) = WriteHeader 200 real
      ∧ Header real !! AllowHeaders = Some ["*"].
Proof.
  cbv zeta. split; [reflexivity|].
  destruct (rewrite_overlay_replaces 200
              {| RewriteResponseWriter :=
                   UpdHeader (fun _ => {[ AllowOrigin := ["https://other.example"];
                                          "Content-Type" := ["text/plain"] ]})
                     Sample.conn;
                 RewriteHeader := {[ AllowOrigin := ["https://example.com"] ]} |})
    as (real & Hreal & _ & Hah).
  exists real. split; [exact Hreal | exact Hah].
Defined.

(** X12 on a run: under the origin overlay, a handler that only writes
    [hi] gets its response out with no header at all. *)
Lemma overlay_needs_WriteHeader_run :
  let w := NewResponseHeaderWriteMiddlwware {[AllowOrigin := "*"]}
             Sample.write_hi Sample.conn Sample.get_with_origin in
  statuses (ServeHTTP (Sample.write_hi Sample.get_with_origin) Sample.conn).2 = []
  ∧ w = (ServeHTTP (Sample.write_hi Sample.get_with_origin) Sample.conn).1
  ∧ sent w = Some (200, ∅).
Proof.
  cbv zeta. split; [reflexivity|]. split; [|reflexivity].
  exact (overlay_needs_WriteHeader {[AllowOrigin := "*"]} Sample.write_hi
           Sample.conn Sample.get_with_origin eq_refl).
Defined.

End MoreRuns.

Section TransparentRun.
#[local] Existing Instance StoredGzip.gzip.

(** X13 on a run: the [304] for a gzip-encoded resource goes out as the
    handler sent it, although the middleware panics afterwards. *)
Lemma dump_middleware_transparent_run :
  let res := NewDumpMiddleware 0 Sample.not_modified_gzip Sample.conn Sample.get in
  res.1 = (ServeHTTP (Sample.not_modified_gzip Sample.get) Sample.conn).1
  ∧ sent res.1 = Some (304, {[ "Content-Encoding" := ["gzip"] ]})
  ∧ res.2 = Panic nil_dereference.
Proof.
  cbv zeta. split; [|split; reflexivity].
  exact (dump_middleware_transparent 0 Sample.not_modified_gzip Sample.conn
           Sample.get response_Write_honest).
Defined.

End TransparentRun.

Section RoundtripRun.
#[local] Existing Instance StoredGzip.gzip.

(** X14 on a run: [hi] sent gzip-encoded in answer to a request whose body
    stream broke after [pi]. *)
Lemma dumpRoundtrip_agrees_run :
  let r' := (dumpRequest Sample.get_cut).1 in
  let sw := (ServeHTTP (Sample.write_hi_gz r')
               (NewResponseSnifferingWriter Sample.conn)).1 in
  let dump :=
    RoundtripDump.mk 3
      (RequestDump.mk "GET" "/" "HTTP/1.1"
         {[ "Accept" := ["*/*"]; "X-Foo" := ["old"; "older"] ]} "pi")
      (ResponseDump.mk {[ "Content-Encoding" := "gzip" ]} "hi" 0) in
  Request.Method Sample.get_cut ≠ MethodOptions
  ∧ (dumpRoundtrip 3 sw r').2 = Done dump
  ∧ (NewDumpMiddleware 3 Sample.write_hi_gz Sample.conn Sample.get_cut).2
    = Done [dump].
Proof.
  cbv zeta. split; [done|]. split; [reflexivity|].
  exact (proj2 (dumpRoundtrip_agrees 3 Sample.write_hi_gz Sample.conn
                  Sample.get_cut ltac:(done))).
Defined.

End RoundtripRun.

Section OriginRuns.

(** C7 on a run: the request comes from [https://example.com], the
    handler only writes [hi]; the server sends 200 with no header.  With
    [WriteHeader(200)] called first, the origin is echoed. *)
Lemma origin_echo_at_middleware_run :
  let served := NewResponseHeaderWriteMiddlwware {[AllowOrigin := "*"]}
                  Sample.write_hi Sample.conn Sample.get_with_origin in
  Request.Header Sample.get_with_origin !! "Origin" = Some ["https://example.com"]
  ∧ statuses (ServeHTTP (Sample.write_hi Sample.get_with_origin) Sample.conn).2 = []
  ∧ served = (ServeHTTP (Sample.write_hi Sample.get_with_origin) Sample.conn).1
  ∧ sent served = Some (200, ∅)
  ∧ wire served = bytes_of_string "hi"
  ∧ sent (NewResponseHeaderWriteMiddlwware {[AllowOrigin := "*"]}
            Sample.typed_ok_hi Sample.conn Sample.get_with_origin)
    = Some (200, {[ AllowOrigin := ["https://example.com"];
                    AllowHeaders := ["*"];
                    "Content-Type" := ["text/plain"] ]}).
Proof.
  cbv zeta. split; [reflexivity|]. split; [reflexivity|].
  split; [|repeat split].
  exact (proj1 (origin_echo_at_middleware Sample.write_hi Sample.conn
                  Sample.get_with_origin eq_refl) eq_refl).
Defined.

(** C10 on a run: the request has no [Origin], the handler sets its own
    allow-origin and only writes [hi]; the server sends that value. *)
Lemma no_origin_at_middleware_run :
  let served := NewResponseHeaderWriteMiddlwware {[AllowOrigin := "*"]}
                  Sample.own_origin_write_hi Sample.conn Sample.get in
  index (Request.Header Sample.get) "Origin" = []
  ∧ statuses (ServeHTTP (Sample.own_origin_write_hi Sample.get) Sample.conn).2 = []
  ∧ served = (ServeHTTP (Sample.own_origin_write_hi Sample.get) Sample.conn).1
  ∧ sent served = Some (200, {[ AllowOrigin := ["https://other.example"] ]})
  ∧ sent (NewResponseHeaderWriteMiddlwware {[AllowOrigin := "*"]}
            Sample.typed_ok_hi Sample.conn Sample.get)
    = Some (200, {[ AllowOrigin := []; "Content-Type" := ["text/plain"] ]}).
Proof.
  cbv zeta. split; [reflexivity|]. split; [reflexivity|].
  split; [|repeat split].
  exact (proj1 (proj2 (no_origin_at_middleware Sample.own_origin_write_hi
                         Sample.conn Sample.get eq_refl)) eq_refl).
Defined.

End OriginRuns.
